(** * SkyDelay-Intelligence: the cascade delay calculator

    A shallow embedding of [src/processing/cascade_calculator.py] and a
    verification of its specification.

    The flight record store ([raw_bts_flights], a DuckDB table filled from a
    pandas frame by [bts_historical_loader.load_bts_csv]) is a list of
    rows.  A column that may hold SQL NULL is an [option].  The three common
    table expressions of [cascade_query] and the final grouped SELECT are list
    functions; a WHERE clause keeps a row exactly when every conjunct
    evaluates to TRUE, so each conjunct is a [bool] that is [false] on NULL.

    Numbers.  Scheduled times are integers ([int64] columns).  Delays and
    money are Python/DuckDB doubles.  A finite double is a rational, so the
    delays of the rows and every comparison the query makes are embedded
    exactly as rationals [Q].  The cost model is embedded twice:

    - [calculate_cascade_impact] computes the costs in the exact arithmetic
      that the floating point operations approximate.  It is used for what
      does not depend on the last bit of a product: counts, passengers,
      destinations, signs, zeros and monotonicity of the costs.  Its rounded
      costs can differ by a cent from the doubles of the program where an
      exact product is a rounding tie.
    - [Binary64.calculate_cascade_impact] computes the costs on IEEE binary64
      numbers, operation by operation as Python does, and returns [None]
      where Python raises (a delay that is not finite).  Every statement on
      the value of a reported cost is made on this function.

    A store that cannot be queried is not modelled: the connection is a
    readable snapshot.

    Beside the calculator, the file embeds its caller in the MCP server
    ([simulate_cascade_impact]), the cloud layer functions of the weather
    producer, and the graph of the pipeline health agent, whose dealings with
    the outside (database, clock, subprocesses, language model) are gathered
    in a record [World]. *)

From Stdlib Require Import ZArith QArith Qround Qabs List String Bool Lia Lqa.
From Stdlib Require Import Permutation Sorted.
From Stdlib Require Import Uint63 PrimFloat SpecFloat FloatOps FloatAxioms.
Import ListNotations.
Local Open Scope Z_scope.

(** ** Cost parameters (module constants of the source) *)

Definition COST_PER_MINUTE_PASSENGER : Q := 74 # 100.
Definition COST_PER_MINUTE_AIRLINE_OPS : Q := 6848 # 100.
Definition AVG_LOAD_FACTOR : Q := 87 # 100.
Definition AVG_SEATS_DOMESTIC : Z := 160.

(** ** The flight record store *)

Record FlightRecord : Type := mkFlightRecord {
  flightdate : option string;
  iata_code_reporting_airline : option string;
  flight_number_reporting_airline : option Z;
  origin : option string;
  dest : option string;
  crsdeptime : option Z;
  crsarrtime : option Z;
  depdelayminutes : option Q;
  arrdelayminutes : option Q;
  cancelled : option Q
}.

(** A connection is a point-in-time snapshot of [raw_bts_flights]. *)
Definition Connection : Type := list FlightRecord.

(** ** SQL values: comparisons that are TRUE (not FALSE, not NULL) *)

Definition Qlt_bool (x y : Q) : bool := negb (Qle_bool y x).

(** [col = ?] for a text column and a bound, non-null parameter. *)
Definition sql_eq_param (col : option string) (p : string) : bool :=
  match col with
  | Some s => String.eqb s p
  | None => false
  end.

(** [x = y] between two text columns. *)
Definition sql_eq_text (x y : option string) : bool :=
  match x, y with
  | Some s, Some t => String.eqb s t
  | _, _ => false
  end.

(** [x IS NOT NULL AND x > c] on a double column. *)
Definition sql_notnull_gt (x : option Q) (c : Q) : bool :=
  match x with
  | Some v => Qlt_bool c v
  | None => false
  end.

(** [x = 0] on a double column. *)
Definition sql_eq_zero (x : option Q) : bool :=
  match x with
  | Some v => Qeq_bool v 0
  | None => false
  end.

Definition sql_is_not_null {A : Type} (x : option A) : bool :=
  match x with
  | Some _ => true
  | None => false
  end.

(** [x - y], [x > y] and [x BETWEEN lo AND hi] on nullable integers. *)
Definition sql_sub (x y : option Z) : option Z :=
  match x, y with
  | Some a, Some b => Some (a - b)
  | _, _ => None
  end.

Definition sql_gt (x y : option Z) : bool :=
  match x, y with
  | Some a, Some b => b <? a
  | _, _ => false
  end.

Definition sql_between (x : option Z) (lo hi : Z) : bool :=
  match x with
  | Some a => (lo <=? a) && (a <=? hi)
  | None => false
  end.

(** [d > g] for a double [d] and a nullable integer [g]. *)
Definition sql_delay_gt (d : Q) (g : option Z) : bool :=
  match g with
  | Some z => Qlt_bool (inject_Z z) d
  | None => false
  end.

(** ** Schedule indexer *)

(** The SQL expression built by [hhmm_to_minutes]:
    [CAST(FLOOR(col / 100) AS INTEGER) * 60 + CAST(col % 100 AS INTEGER)].
    [/] divides in floating point, so [FLOOR] makes it the floor of the
    quotient; [%] is the remainder of truncated division.  NULL propagates. *)
Definition hhmm_to_minutes (hhmm_col : option Z) : option Z :=
  match hhmm_col with
  | Some v => Some (v / 100 * 60 + Z.rem v 100)
  | None => None
  end.

(** Rows of the CTE [delayed_arrivals]. *)
Record DelayedArrival : Type := mkDelayedArrival {
  a_airline : option string;
  a_arr_minutes : option Z;
  a_arr_delay : Q;
  a_arrived_from : option string
}.

(** Rows of the CTE [outbound_flights]. *)
Record OutboundFlight : Type := mkOutboundFlight {
  o_airline : option string;
  o_flight_num : option Z;
  o_outbound_dest : option string;
  o_dep_minutes : option Z;
  o_depdelayminutes : option Q
}.

(** Rows of the CTE [cascade_matches]. *)
Record CascadeMatch : Type := mkCascadeMatch {
  m_outbound_dest : option string;
  m_flight_num : option Z;
  m_depdelayminutes : option Q;
  m_inbound_delay : Q;
  m_turnaround_gap : option Z;
  m_arrived_from : option string
}.

(** The inbound side, with the threshold on the delay left open:
    [arrdelayminutes IS NOT NULL AND keep(arrdelayminutes)]. *)
Definition arrivals_where (keep : Q -> bool)
    (con : Connection) (airport date : string) : list DelayedArrival :=
  flat_map
    (fun r =>
       match arrdelayminutes r with
       | Some d =>
           if sql_eq_param (dest r) airport && sql_eq_param (flightdate r) date
              && keep d
           then [ {| a_airline := iata_code_reporting_airline r;
                     a_arr_minutes := hhmm_to_minutes (crsarrtime r);
                     a_arr_delay := d;
                     a_arrived_from := origin r |} ]
           else []
       | None => []
       end)
    con.

(** [delayed_arrivals]: [arrdelayminutes IS NOT NULL AND arrdelayminutes >= 15]. *)
Definition delayed_arrivals (con : Connection) (airport date : string)
    : list DelayedArrival :=
  arrivals_where (fun d => Qle_bool 15 d) con airport date.

(** [outbound_flights]: departures from the hub, not cancelled, scheduled. *)
Definition outbound_flights (con : Connection) (airport date : string)
    : list OutboundFlight :=
  map
    (fun r =>
       {| o_airline := iata_code_reporting_airline r;
          o_flight_num := flight_number_reporting_airline r;
          o_outbound_dest := dest r;
          o_dep_minutes := hhmm_to_minutes (crsdeptime r);
          o_depdelayminutes := depdelayminutes r |})
    (filter
       (fun r =>
          sql_eq_param (origin r) airport && sql_eq_param (flightdate r) date
          && sql_eq_zero (cancelled r) && sql_is_not_null (crsdeptime r))
       con).

(** ** Cascade matcher *)

(** Python's [int(x)] on a float: truncation towards zero. *)
Definition py_int (x : Q) : Z := Z.quot (Qnum x) (Z.pos (Qden x)).

(** The upper end of the BETWEEN, computed in Python and spliced into the
    query text: [min_turnaround_minutes + int(delay_minutes)]. *)
Definition window_hi (delay_minutes : Q) (min_turnaround_minutes : Z) : Z :=
  min_turnaround_minutes + py_int delay_minutes.

(** ON and WHERE of [cascade_matches], for one joined pair. *)
Definition cascade_on (hi : Z) (o : OutboundFlight) (a : DelayedArrival) : bool :=
  sql_eq_text (o_airline o) (a_airline a)
  && sql_gt (o_dep_minutes o) (a_arr_minutes a)
  && sql_between (sql_sub (o_dep_minutes o) (a_arr_minutes a)) 20 hi
  && sql_delay_gt (a_arr_delay a) (sql_sub (o_dep_minutes o) (a_arr_minutes a)).

(** The joined pairs that pass the WHERE clause. *)
Definition cascade_pairs (hi : Z) (os : list OutboundFlight)
    (arrs : list DelayedArrival) : list (OutboundFlight * DelayedArrival) :=
  flat_map (fun o => map (pair o) (filter (cascade_on hi o) arrs)) os.

(** The select list of [cascade_matches]. *)
Definition match_row (p : OutboundFlight * DelayedArrival) : CascadeMatch :=
  let (o, a) := p in
  {| m_outbound_dest := o_outbound_dest o;
     m_flight_num := o_flight_num o;
     m_depdelayminutes := o_depdelayminutes o;
     m_inbound_delay := a_arr_delay a;
     m_turnaround_gap := sql_sub (o_dep_minutes o) (a_arr_minutes a);
     m_arrived_from := a_arrived_from a |}.

Definition matches_of (hi : Z) (os : list OutboundFlight)
    (arrs : list DelayedArrival) : list CascadeMatch :=
  map match_row (cascade_pairs hi os arrs).

Definition cascade_matches (con : Connection) (airport date : string)
    (delay_minutes : Q) (min_turnaround_minutes : Z) : list CascadeMatch :=
  matches_of (window_hi delay_minutes min_turnaround_minutes)
    (outbound_flights con airport date) (delayed_arrivals con airport date).

(** ** The grouped SELECT over [cascade_matches] *)

(** Rows of the result set fetched into [cascade_df]. *)
Record DestRow : Type := mkDestRow {
  outbound_dest : option string;
  affected_flights : Z;
  avg_outbound_delay : option Q;
  avg_inbound_delay : option Q
}.

(** Equality of grouping keys: GROUP BY puts all NULLs in one group. *)
Definition key_eqb (x y : option string) : bool :=
  match x, y with
  | Some s, Some t => String.eqb s t
  | None, None => true
  | _, _ => false
  end.

(** The distinct keys of a column, in order of first occurrence. *)
Fixpoint distinct (ks : list (option string)) : list (option string) :=
  match ks with
  | [] => []
  | k :: rest => k :: filter (fun k' => negb (key_eqb k k')) (distinct rest)
  end.

Definition group_rows (k : option string) (ms : list CascadeMatch)
    : list CascadeMatch :=
  filter (fun m => key_eqb k (m_outbound_dest m)) ms.

Definition Qsum (xs : list Q) : Q := fold_right Qplus 0%Q xs.

(** [avg(col)]: NULLs are skipped; NULL when nothing is left. *)
Definition sql_avg (xs : list (option Q)) : option Q :=
  match flat_map (fun x => match x with Some v => [v] | None => [] end) xs with
  | [] => None
  | v :: vs => Some (Qsum (v :: vs) / inject_Z (Z.of_nat (List.length (v :: vs))))%Q
  end.

(** [round(x, 1)] of DuckDB on a double: halves go away from zero. *)
Definition round_half_away (x : Q) : Z :=
  if Qle_bool 0 x then Qfloor (x + (1 # 2)) else Qceiling (x - (1 # 2)).

Definition sql_round1 (x : option Q) : option Q :=
  match x with
  | Some v => Some (Qmake (round_half_away (v * 10)) 10)
  | None => None
  end.

Definition dest_row (ms : list CascadeMatch) (k : option string) : DestRow :=
  let g := group_rows k ms in
  {| outbound_dest := k;
     affected_flights := Z.of_nat (List.length g);
     avg_outbound_delay := sql_round1 (sql_avg (map m_depdelayminutes g));
     avg_inbound_delay := sql_round1 (sql_avg (map (fun m => Some (m_inbound_delay m)) g)) |}.

Definition group_by_dest (ms : list CascadeMatch) : list DestRow :=
  map (dest_row ms) (distinct (map m_outbound_dest ms)).

(** ORDER BY affected_flights DESC, as a stable insertion sort.  SQL leaves
    the order of rows with equal counts open, and this is one of the orders
    the engine may return.  The theorems on the destination list use only
    that the frame is a permutation of the groups with non-increasing counts;
    no statement rests on which of two equal counts comes first. *)
Fixpoint insert_desc (r : DestRow) (l : list DestRow) : list DestRow :=
  match l with
  | [] => [r]
  | h :: t =>
      if affected_flights h <=? affected_flights r
      then r :: l
      else h :: insert_desc r t
  end.

Definition order_by_affected_desc (l : list DestRow) : list DestRow :=
  fold_right insert_desc [] l.

(** The frame [cascade_df]: what [cascade_query] returns. *)
Definition cascade_df (con : Connection) (airport date : string)
    (delay_minutes : Q) (min_turnaround_minutes : Z) : list DestRow :=
  order_by_affected_desc
    (group_by_dest
       (cascade_matches con airport date delay_minutes min_turnaround_minutes)).

(** ** Direct count *)

Definition is_direct (airport date : string) (r : FlightRecord) : bool :=
  sql_eq_param (dest r) airport && sql_eq_param (flightdate r) date
  && sql_notnull_gt (arrdelayminutes r) 0%Q.

Definition direct_count (con : Connection) (airport date : string) : Z :=
  Z.of_nat (List.length (filter (is_direct airport date) con)).

(** ** Economic cost model and report *)

(** Round to the nearest integer, halves to the even neighbour. *)
Definition round_half_even (x : Q) : Z :=
  let f := Qfloor x in
  match (x - inject_Z f ?= 1 # 2)%Q with
  | Lt => f
  | Gt => f + 1
  | Eq => if Z.even f then f else f + 1
  end.

(** Python's [round(x, 2)]. *)
Definition py_round2 (x : Q) : Q := Qmake (round_half_even (x * 100)) 100.

Record CascadeResult : Type := mkCascadeResult {
  origin_airport : string;
  trigger_delay_minutes : Q;
  directly_affected_flights : Z;
  cascade_affected_flights : Z;
  total_affected_passengers : Z;
  estimated_passenger_cost : Q;
  estimated_airline_cost : Q;
  total_economic_impact : Q;
  affected_destinations : list (option string)
}.

(** [int(cascade_df["affected_flights"].sum()) if not cascade_df.empty else 0] *)
Definition n_cascade_of (df : list DestRow) : Z :=
  match df with
  | [] => 0
  | _ :: _ => fold_right Z.add 0 (map affected_flights df)
  end.

(** [cascade_df["outbound_dest"].tolist() if not cascade_df.empty else []] *)
Definition affected_dests_of (df : list DestRow) : list (option string) :=
  match df with
  | [] => []
  | _ :: _ => map outbound_dest df
  end.

(** Step 3 of the source, from the two counts on. *)
Definition total_pax_of (total_flights : Z) : Z :=
  py_int (inject_Z (total_flights * AVG_SEATS_DOMESTIC) * AVG_LOAD_FACTOR).

Definition avg_delay_of (total_flights : Z) (delay_minutes : Q) : Q :=
  if 0 <? total_flights then delay_minutes else 0%Q.

Definition pax_cost_of (total_flights : Z) (delay_minutes : Q) : Q :=
  (inject_Z (total_pax_of total_flights) * avg_delay_of total_flights delay_minutes
   * COST_PER_MINUTE_PASSENGER)%Q.

Definition airline_cost_of (total_flights : Z) (delay_minutes : Q) : Q :=
  (inject_Z total_flights * avg_delay_of total_flights delay_minutes
   * COST_PER_MINUTE_AIRLINE_OPS)%Q.

Definition calculate_cascade_impact (con : Connection) (airport date : string)
    (delay_minutes : Q) (min_turnaround_minutes : Z) : CascadeResult :=
  let df := cascade_df con airport date delay_minutes min_turnaround_minutes in
  let n_cascade := n_cascade_of df in
  let affected_dests := affected_dests_of df in
  let total_flights := direct_count con airport date + n_cascade in
  let pax_cost := pax_cost_of total_flights delay_minutes in
  let airline_cost := airline_cost_of total_flights delay_minutes in
  let total_cost := (pax_cost + airline_cost)%Q in
  {| origin_airport := airport;
     trigger_delay_minutes := delay_minutes;
     directly_affected_flights := direct_count con airport date;
     cascade_affected_flights := n_cascade;
     total_affected_passengers := total_pax_of total_flights;
     estimated_passenger_cost := py_round2 pax_cost;
     estimated_airline_cost := py_round2 airline_cost;
     total_economic_impact := py_round2 total_cost;
     affected_destinations := firstn 20 affected_dests |}.

(** The default of the keyword argument [min_turnaround_minutes]. *)
Definition default_min_turnaround : Z := 45.

(** ** Notions used to state the properties *)

(** The inbound side as the specification words it: every arrival with a
    non-null, positive delay. *)
Definition positive_arrivals (con : Connection) (airport date : string)
    : list DelayedArrival :=
  arrivals_where (fun d => Qlt_bool 0 d) con airport date.

Definition cascade_matches_positive (con : Connection) (airport date : string)
    (delay_minutes : Q) (min_turnaround_minutes : Z) : list CascadeMatch :=
  matches_of (window_hi delay_minutes min_turnaround_minutes)
    (outbound_flights con airport date) (positive_arrivals con airport date).

(** No inbound arrival into [airport] on [date] reports a positive delay. *)
Definition no_delayed_inbound (con : Connection) (airport date : string) : Prop :=
  forall r d,
    In r con -> dest r = Some airport -> flightdate r = Some date ->
    arrdelayminutes r = Some d -> ~ (0 < d)%Q.

(** The store holds no row of [date] that arrives at or leaves [airport]. *)
Definition no_rows (con : Connection) (airport date : string) : Prop :=
  forall r,
    In r con -> flightdate r = Some date ->
    dest r <> Some airport /\ origin r <> Some airport.

(** Number of accepted matches whose outbound flight goes to [k]. *)
Definition dest_match_count (con : Connection) (airport date : string)
    (delay_minutes : Q) (min_turnaround_minutes : Z) (k : option string) : Z :=
  Z.of_nat
    (List.length
       (group_rows k
          (cascade_matches con airport date delay_minutes
             min_turnaround_minutes))).

(** Size of the group of [k] among rows keyed by [key]. *)
Definition group_size {A : Type} (key : A -> option string)
    (k : option string) (l : list A) : nat :=
  List.length (filter (fun m => key_eqb k (key m)) l).

(** Rows whose key occurs in [ks]. *)
Definition keyed_in {A : Type} (key : A -> option string)
    (ks : list (option string)) (l : list A) : list A :=
  filter (fun m => existsb (fun k => key_eqb k (key m)) ks) l.

(** [r1] may stand before [r2] in a frame ordered by descending count. *)
Definition count_ge (r1 r2 : DestRow) : Prop :=
  affected_flights r2 <= affected_flights r1.

(** The sum of a column of counts. *)
Definition zsum (l : list Z) : Z := fold_right Z.add 0 l.

(** ** The cost model in binary64 *)

(** Step 3 of the source once more, on IEEE binary64 numbers as Python
    computes it, and with it the whole function.  Integers stay integers; an
    integer meets a double only as an operand of a product, where it is
    converted first. *)
Module Binary64.

(** [float(z)]: exact below 2^53 and rounded to the nearest double below
    2^63, which no number of rows, passengers or cents reaches. *)
Definition of_int (z : Z) : float :=
  if z <? 0 then PrimFloat.opp (PrimFloat.of_uint63 (Uint63.of_Z (- z)))
  else PrimFloat.of_uint63 (Uint63.of_Z z).

(** The double nearest to [n / d]: how a decimal literal is read. *)
Definition decimal (n d : Z) : float := PrimFloat.div (of_int n) (of_int d).

Definition COST_PER_MINUTE_PASSENGER : float := decimal 74 100.
Definition COST_PER_MINUTE_AIRLINE_OPS : float := decimal 6848 100.
Definition AVG_LOAD_FACTOR : float := decimal 87 100.

(** The rational a finite double stands for. *)
Definition exact (x : float) : option Q :=
  match Prim2SF x with
  | S754_zero _ => Some 0%Q
  | S754_finite s m e =>
      let mag := if 0 <=? e then inject_Z (Z.pos m * 2 ^ e)
                 else Qmake (Z.pos m) (Z.to_pos (2 ^ (- e))) in
      Some (if s then Qopp mag else mag)
  | S754_infinity _ | S754_nan => None
  end.

(** [int(x)]; fails on infinities and NaN. *)
Definition int (x : float) : option Z := option_map py_int (exact x).

(** [round(x, 2)]: the exact value of [x] is rounded to a whole number of
    hundredths, halves to even, and the double nearest to that decimal is
    returned. *)
Definition round2 (x : float) : option float :=
  option_map (fun q => decimal (round_half_even (q * 100)) 100) (exact x).

Definition total_pax (total_flights : Z) : option Z :=
  int (PrimFloat.mul (of_int (total_flights * AVG_SEATS_DOMESTIC)) AVG_LOAD_FACTOR).

(** The three reported costs: passenger, airline, total. *)
Definition reported_costs (total_flights : Z) (delay_minutes : float)
    : option (float * float * float) :=
  match total_pax total_flights with
  | Some pax =>
      let avg_delay := if 0 <? total_flights then delay_minutes else of_int 0 in
      let pax_cost :=
        PrimFloat.mul (PrimFloat.mul (of_int pax) avg_delay)
          COST_PER_MINUTE_PASSENGER in
      let airline_cost :=
        PrimFloat.mul (PrimFloat.mul (of_int total_flights) avg_delay)
          COST_PER_MINUTE_AIRLINE_OPS in
      let total_cost := PrimFloat.add pax_cost airline_cost in
      match round2 pax_cost, round2 airline_cost, round2 total_cost with
      | Some p, Some a, Some t => Some (p, a, t)
      | _, _, _ => None
      end
  | None => None
  end.

(** [round(x, 2)] on every double: zeros, infinities and NaN are returned as
    they are; otherwise the magnitude is rounded as in [round2] and the sign
    put back.  From 2^53 hundredths on, doubles lie more than a cent apart
    and the double nearest to the rounded decimal is [x] itself. *)
Definition py_round2 (x : float) : float :=
  match Prim2SF x, exact x with
  | S754_finite s _ _, Some q =>
      let n := round_half_even (Qabs q * 100) in
      if n <? 2 ^ 53
      then let y := decimal n 100 in if s then PrimFloat.opp y else y
      else x
  | _, _ => x
  end.

Record CascadeResult : Type := mkCascadeResult {
  origin_airport : string;
  trigger_delay_minutes : float;
  directly_affected_flights : Z;
  cascade_affected_flights : Z;
  total_affected_passengers : Z;
  estimated_passenger_cost : float;
  estimated_airline_cost : float;
  total_economic_impact : float;
  affected_destinations : list (option string)
}.

(** [calculate_cascade_impact] with [delay_minutes] a double, as annotated
    and as the MCP server passes it.  (A delay passed as a Python [int] gives
    the same doubles: the product of two integers below 2^53 is rounded once
    either way.)  The queries are those of the rational embedding, run with
    the exact value of the delay; [int(delay_minutes)] and [int(...)] of the
    passenger count raise on a double that is not finite, which is [None]
    here. *)
Definition calculate_cascade_impact (con : Connection) (airport date : string)
    (delay_minutes : float) (min_turnaround_minutes : Z) : option CascadeResult :=
  match exact delay_minutes with
  | None => None
  | Some q =>
      let df := cascade_df con airport date q min_turnaround_minutes in
      let n_cascade := n_cascade_of df in
      let affected_dests := affected_dests_of df in
      let total_flights := direct_count con airport date + n_cascade in
      match total_pax total_flights with
      | None => None
      | Some pax =>
          let avg_delay :=
            if 0 <? total_flights then delay_minutes else of_int 0 in
          let pax_cost :=
            PrimFloat.mul (PrimFloat.mul (of_int pax) avg_delay)
              COST_PER_MINUTE_PASSENGER in
          let airline_cost :=
            PrimFloat.mul (PrimFloat.mul (of_int total_flights) avg_delay)
              COST_PER_MINUTE_AIRLINE_OPS in
          let total_cost := PrimFloat.add pax_cost airline_cost in
          Some {| origin_airport := airport;
                  trigger_delay_minutes := delay_minutes;
                  directly_affected_flights := direct_count con airport date;
                  cascade_affected_flights := n_cascade;
                  total_affected_passengers := pax;
                  estimated_passenger_cost := py_round2 pax_cost;
                  estimated_airline_cost := py_round2 airline_cost;
                  total_economic_impact := py_round2 total_cost;
                  affected_destinations := firstn 20 affected_dests |}
      end
  end.

(** Equality of two doubles as Python's [==] sees it on numbers: the same
    double, or two zeros of either sign. *)
Definition same_value (x y : float) : Prop :=
  x = y \/ (exact x = Some 0%Q /\ exact y = Some 0%Q).

End Binary64.

(** ** Sample snapshots *)

Section Samples.
Local Open Scope string_scope.

(** An arrival into ORD on 2025-10-15. *)
Definition arrival (airline from : string) (crsarr : Z) (delay : option Q)
    : FlightRecord :=
  {| flightdate := Some "2025-10-15";
     iata_code_reporting_airline := Some airline;
     flight_number_reporting_airline := Some 100;
     origin := Some from;
     dest := Some "ORD";
     crsdeptime := Some 600;
     crsarrtime := Some crsarr;
     depdelayminutes := Some 0%Q;
     arrdelayminutes := delay;
     cancelled := Some 0%Q |}.

(** A departure from ORD on 2025-10-15, arriving on time. *)
Definition departure (airline to : string) (num crsdep : Z) : FlightRecord :=
  {| flightdate := Some "2025-10-15";
     iata_code_reporting_airline := Some airline;
     flight_number_reporting_airline := Some num;
     origin := Some "ORD";
     dest := Some to;
     crsdeptime := Some crsdep;
     crsarrtime := Some 2300;
     depdelayminutes := Some 5%Q;
     arrdelayminutes := Some 0%Q;
     cancelled := Some 0%Q |}.

(** One late American arrival at 10:00 and three American departures
    within the hour, plus traffic that cannot match. *)
Definition snapshot_hub : Connection :=
  [ arrival "AA" "LGA" 1000 (Some 60%Q);
    departure "AA" "DFW" 201 1030;
    departure "AA" "LAX" 202 1045;
    departure "AA" "DFW" 203 1050;
    departure "UA" "SFO" 301 1030;
    arrival "AA" "BOS" 1010 (Some 3%Q) ].

(** A single late arrival, nothing leaving. *)
Definition snapshot_one : Connection :=
  [ arrival "AA" "LGA" 1000 (Some 60%Q) ].

(** Three late arrivals, nothing leaving. *)
Definition snapshot_three : Connection :=
  [ arrival "AA" "LGA" 1000 (Some 60%Q);
    arrival "UA" "EWR" 1100 (Some 25%Q);
    arrival "DL" "ATL" 1200 (Some 7%Q) ].

(** One late arrival and one departure to each of two destinations. *)
Definition snapshot_tie : Connection :=
  [ arrival "AA" "LGA" 1000 (Some 60%Q);
    departure "AA" "DFW" 201 1030;
    departure "AA" "LAX" 202 1045 ].

(** Traffic at the hub, but every arrival is on time or unreported. *)
Definition snapshot_on_time : Connection :=
  [ arrival "AA" "LGA" 1000 (Some 0%Q);
    arrival "UA" "EWR" 1005 None;
    departure "AA" "DFW" 201 1030;
    departure "UA" "SFO" 301 1040 ].

Definition ORD : string := "ORD".
Definition JFK : string := "JFK".
Definition day : string := "2025-10-15".
End Samples.

(** The first row of [cascade_matches] on [snapshot_hub]: the 10:00 arrival
    from LGA, one hour late, against the 10:30 departure to DFW. *)
Definition sample_match : CascadeMatch :=
  {| m_outbound_dest := Some "DFW"%string;
     m_flight_num := Some 201;
     m_depdelayminutes := Some 5%Q;
     m_inbound_delay := 60%Q;
     m_turnaround_gap := Some 30;
     m_arrived_from := Some "LGA"%string |}.

(** What [snapshot_hub] gives for a trigger delay of 90 minutes, in doubles:
    two late arrivals, three matches, [int(5 * 160 * 0.87) = 696] passengers,
    costs 46353.60, 30816.00 and 77169.60. *)
Definition hub_result_90 : Binary64.CascadeResult :=
  {| Binary64.origin_airport := "ORD"%string;
     Binary64.trigger_delay_minutes := Binary64.of_int 90;
     Binary64.directly_affected_flights := 2;
     Binary64.cascade_affected_flights := 3;
     Binary64.total_affected_passengers := 696;
     Binary64.estimated_passenger_cost := Binary64.decimal 4635360 100;
     Binary64.estimated_airline_cost := Binary64.decimal 3081600 100;
     Binary64.total_economic_impact := Binary64.decimal 7716960 100;
     Binary64.affected_destinations := [Some "DFW"%string; Some "LAX"%string] |}.

(** What [snapshot_one] gives for a trigger delay of 15.75 minutes, in
    doubles.  The exact passenger cost 139 * 15.75 * 0.74 = 1620.045 is a
    rounding tie; the double product lies above it and is reported as
    1620.05. *)
Definition one_result_15_75 : Binary64.CascadeResult :=
  {| Binary64.origin_airport := "ORD"%string;
     Binary64.trigger_delay_minutes := Binary64.decimal 1575 100;
     Binary64.directly_affected_flights := 1;
     Binary64.cascade_affected_flights := 0;
     Binary64.total_affected_passengers := 139;
     Binary64.estimated_passenger_cost := Binary64.decimal 162005 100;
     Binary64.estimated_airline_cost := Binary64.decimal 107856 100;
     Binary64.total_economic_impact := Binary64.decimal 269861 100;
     Binary64.affected_destinations := [] |}.

(** What [snapshot_one] gives for a trigger delay of 30.1 minutes, in
    doubles. *)
Definition one_result_30_1 : Binary64.CascadeResult :=
  {| Binary64.origin_airport := "ORD"%string;
     Binary64.trigger_delay_minutes := Binary64.decimal 301 10;
     Binary64.directly_affected_flights := 1;
     Binary64.cascade_affected_flights := 0;
     Binary64.total_affected_passengers := 139;
     Binary64.estimated_passenger_cost := Binary64.decimal 309609 100;
     Binary64.estimated_airline_cost := Binary64.decimal 206125 100;
     Binary64.total_economic_impact := Binary64.decimal 515733 100;
     Binary64.affected_destinations := [] |}.

(** ** Scope of the queries and clock values *)

(** The rows that the three queries of [calculate_cascade_impact] can read:
    those of the date that arrive at or leave the airport. *)
Definition in_scope (airport date : string) (r : FlightRecord) : bool :=
  sql_eq_param (flightdate r) date
  && (sql_eq_param (dest r) airport || sql_eq_param (origin r) airport).

(** A scheduled time written HHMM with minutes below 60. *)
Definition clock_value (v : Z) : Prop := 0 <= v /\ Z.rem v 100 < 60.

(** ** The MCP tool [simulate_cascade_impact] *)

(** [str.upper()] on text in ASCII, as airport codes are. *)
Definition upper_ascii (c : Ascii.ascii) : Ascii.ascii :=
  let n := Ascii.nat_of_ascii c in
  if ((97 <=? n) && (n <=? 122))%nat then Ascii.ascii_of_nat (n - 32) else c.

Fixpoint upper (s : string) : string :=
  match s with
  | EmptyString => EmptyString
  | String c s' => String (upper_ascii c) (upper s')
  end.

(** The lower-case letters of ASCII. *)
Definition is_lower (c : Ascii.ascii) : bool :=
  let n := Ascii.nat_of_ascii c in ((97 <=? n) && (n <=? 122))%nat.

(** The same character, or a letter and the same letter in the other case
    (the capital of a lower-case letter stands 32 places before it). *)
Definition same_letter (c1 c2 : Ascii.ascii) : bool :=
  let n1 := Ascii.nat_of_ascii c1 in
  let n2 := Ascii.nat_of_ascii c2 in
  ((n1 =? n2) || (is_lower c1 && (n2 =? n1 - 32))
   || (is_lower c2 && (n1 =? n2 - 32)))%nat.

(** Two codes that differ in the case of their letters at most. *)
Fixpoint same_code (s t : string) : bool :=
  match s, t with
  | EmptyString, EmptyString => true
  | String c s', String d t' => same_letter c d && same_code s' t'
  | _, _ => false
  end.

(** Text in ASCII: every character is below 128. *)
Fixpoint ascii_text (s : string) : bool :=
  match s with
  | EmptyString => true
  | String c s' => (Ascii.nat_of_ascii c <? 128)%nat && ascii_text s'
  end.

(** No lower-case letter occurs in the text. *)
Fixpoint no_lower (s : string) : bool :=
  match s with
  | EmptyString => true
  | String c s' => negb (is_lower c) && no_lower s'
  end.

(** The dictionary returned by the tool, without its two fixed texts
    ([interpretation], [methodology]). *)
Record CascadeSimulation : Type := mkCascadeSimulation {
  sim_airport : string;
  sim_trigger_delay_minutes : Q;
  sim_analysis_date : string;
  sim_directly_affected_flights : Z;
  sim_cascade_affected_flights : Z;
  sim_total_flights_affected : Z;
  sim_total_passengers_impacted : Z;
  sim_passenger_delay_cost_usd : Q;
  sim_airline_operations_cost_usd : Q;
  sim_total_economic_impact_usd : Q;
  sim_cascade_destinations : list (option string)
}.

(** [latest_flight_date] is what [SELECT max(flight_date) FROM
    mart_delay_economics] returns, read only when [date] is empty. *)
Definition simulate_cascade_impact (con : Connection)
    (latest_flight_date : string) (airport_code : string) (delay_minutes : Z)
    (date : string) : CascadeSimulation :=
  let date := if String.eqb date "" then latest_flight_date else date in
  let result :=
    calculate_cascade_impact con (upper airport_code) date
      (inject_Z delay_minutes) default_min_turnaround in
  {| sim_airport := origin_airport result;
     sim_trigger_delay_minutes := trigger_delay_minutes result;
     sim_analysis_date := date;
     sim_directly_affected_flights := directly_affected_flights result;
     sim_cascade_affected_flights := cascade_affected_flights result;
     sim_total_flights_affected :=
       directly_affected_flights result + cascade_affected_flights result;
     sim_total_passengers_impacted := total_affected_passengers result;
     sim_passenger_delay_cost_usd := estimated_passenger_cost result;
     sim_airline_operations_cost_usd := estimated_airline_cost result;
     sim_total_economic_impact_usd := total_economic_impact result;
     sim_cascade_destinations := firstn 15 (affected_destinations result) |}.

(** One late arrival, and departures of the same airline to 21 destinations
    half an hour later; a second departure to the first of them. *)
Definition wide_destinations : list string :=
  ["ATL"; "BOS"; "CLT"; "DCA"; "DEN"; "DFW"; "DTW"; "EWR"; "IAH"; "JFK"; "LAS";
   "LAX"; "LGA"; "MCO"; "MIA"; "MSP"; "PHL"; "PHX"; "SEA"; "SFO"; "SLC"]%string.

Definition snapshot_wide : Connection :=
  arrival "AA" "BNA" 1000 (Some 60%Q)
  :: departure "AA" "ATL" 200 1040
  :: map (fun to => departure "AA" to 201 1030) wide_destinations.

(** The match of [snapshot_wide] that goes to the last destination. *)
Definition wide_last_match : CascadeMatch :=
  {| m_outbound_dest := Some "SLC"%string;
     m_flight_num := Some 201;
     m_depdelayminutes := Some 5%Q;
     m_inbound_delay := 60%Q;
     m_turnaround_gap := Some 30;
     m_arrived_from := Some "BNA"%string |}.

(** ** METAR cloud layers ([noaa_weather_producer]) *)

(** One entry of the [clouds] array of a METAR record: the keys [cover] and
    [base], either of which may be missing or null. *)
Record CloudLayer : Type := mkCloudLayer {
  cover : option string;
  base : option Q
}.

(** [priority.get(x, 0)] *)
Definition cover_priority (x : string) : Z :=
  if String.eqb x "OVC" then 5
  else if String.eqb x "BKN" then 4
  else if String.eqb x "SCT" then 3
  else if String.eqb x "FEW" then 2
  else if String.eqb x "CLR" then 1
  else 0.

(** [max(x :: xs, key=f)]: the first element whose key is largest. *)
Fixpoint max_by (f : string -> Z) (x : string) (xs : list string) : string :=
  match xs with
  | [] => x
  | y :: ys => if f x <? f y then max_by f y ys else max_by f x ys
  end.

(** [[c.get("cover", "") for c in clouds if c.get("cover")]] *)
Definition covers_of (clouds : list CloudLayer) : list string :=
  flat_map
    (fun c =>
       match cover c with
       | Some s => if String.eqb s "" then [] else [s]
       | None => []
       end)
    clouds.

Definition _parse_cloud_cover (clouds : list CloudLayer) : string :=
  match clouds with
  | [] => "CLR"
  | _ :: _ =>
      match covers_of clouds with
      | x :: xs => max_by cover_priority x xs
      | [] => "CLR"
      end
  end.

(** [cover in ("BKN", "OVC")], with [cover = cloud.get("cover", "")] *)
Definition is_ceiling_layer (c : CloudLayer) : bool :=
  match cover c with
  | Some s => String.eqb s "BKN" || String.eqb s "OVC"
  | None => false
  end.

Fixpoint _parse_ceiling (clouds : list CloudLayer) : option Q :=
  match clouds with
  | [] => None
  | cloud :: rest =>
      if is_ceiling_layer cloud
      then match base cloud with
           | Some b => Some b
           | None => _parse_ceiling rest
           end
      else _parse_ceiling rest
  end.

(** Layers listed from the lowest base upwards, as a METAR reports them. *)
Definition bases_ascending (clouds : list CloudLayer) : Prop :=
  StronglySorted
    (fun c1 c2 =>
       forall b1 b2, base c1 = Some b1 -> base c2 = Some b2 -> (b1 <= b2)%Q)
    clouds.

(** Few clouds at 2500 ft, broken at 4000 ft, overcast at 9000 ft. *)
Definition sample_clouds : list CloudLayer :=
  [ {| cover := Some "FEW"%string; base := Some 2500%Q |};
    {| cover := Some "BKN"%string; base := Some 4000%Q |};
    {| cover := Some "OVC"%string; base := Some 9000%Q |} ].

(** ** The pipeline health agent ([pipeline_health_agent]) *)

Section Agent.
Local Open Scope string_scope.

(** One entry of [health_checks]. *)
Record HealthCheck : Type := mkHealthCheck {
  hc_table : string;
  hc_status : string;
  hc_issues : list string;
  hc_row_count : Z;
  hc_latest_record : option string
}.

(** One entry of [issues_detected]. *)
Record Issue : Type := mkIssue {
  i_table : string;
  i_severity : string;
  i_problems : list string;
  i_row_count : Z;
  i_latest_record : option string
}.

(** One entry of [actions_taken]; only a command that was run has the key
    [command]. *)
Record Action : Type := mkAction {
  act_action : string;
  act_command : option string;
  act_status : string;
  act_output : string
}.

Record PipelineState : Type := mkPipelineState {
  health_checks : list HealthCheck;
  issues_detected : list Issue;
  diagnosis : string;
  actions_taken : list Action;
  final_report : string;
  iteration : Z
}.

(** What the agent cannot decide by itself: the checks found in the database
    at each round, the text that comes back from the diagnosis, status and
    output of each command that is run, the rendering of the report, and two
    paths.  Rounds are told apart by the value of [iteration]. *)
Record World : Type := mkWorld {
  observed : Z -> list HealthCheck;
  llm_answer : Z -> string;
  run_command : Z -> Issue -> list string -> string -> string * string;
  render : PipelineState -> string;
  sys_executable : string;
  PROJECT_ROOT : string;
  dbt_project_dir : string
}.

(** Node 1.  The checks are the world's; the round counter goes up. *)
Definition check_pipeline_health (w : World) (state : PipelineState)
    : PipelineState :=
  {| health_checks := observed w (iteration state);
     issues_detected := issues_detected state;
     diagnosis := diagnosis state;
     actions_taken := actions_taken state;
     final_report := final_report state;
     iteration := (iteration state + 1)%Z |}.

(** Node 2. *)
Definition detect_issues (state : PipelineState) : PipelineState :=
  let issues :=
    flat_map
      (fun check =>
         if negb (String.eqb (hc_status check) "healthy")
         then [ {| i_table := hc_table check;
                   i_severity := hc_status check;
                   i_problems := hc_issues check;
                   i_row_count := hc_row_count check;
                   i_latest_record := hc_latest_record check |} ]
         else [])
      (health_checks state) in
  {| health_checks := health_checks state;
     issues_detected := issues;
     diagnosis := diagnosis state;
     actions_taken := actions_taken state;
     final_report := final_report state;
     iteration := iteration state |}.

(** Node 3.  With issues, the diagnosis is whatever comes back: the answer
    of the model or one of the texts that report its failure. *)
Definition diagnose_with_llm (w : World) (state : PipelineState)
    : PipelineState :=
  {| health_checks := health_checks state;
     issues_detected := issues_detected state;
     diagnosis :=
       match issues_detected state with
       | [] => "Pipeline is healthy. No issues to diagnose."
       | _ :: _ => llm_answer w (iteration state)
       end;
     actions_taken := actions_taken state;
     final_report := final_report state;
     iteration := iteration state |}.

(** [sub in s] *)
Fixpoint contains (sub s : string) : bool :=
  if String.prefix sub s then true
  else match s with
       | EmptyString => false
       | String _ s' => contains sub s'
       end.

(** [_run_remediation(description, cmd, cwd)] *)
Definition _run_remediation (w : World) (round : Z) (issue : Issue)
    (description : string) (cmd : list string) (cwd : option string) : Action :=
  let cwd := match cwd with Some d => d | None => PROJECT_ROOT w end in
  let (status, output) := run_command w round issue cmd cwd in
  {| act_action := description;
     act_command := Some (String.concat " " cmd);
     act_status := status;
     act_output := output |}.

(** The body of the loop of [auto_remediate]: the actions one issue adds. *)
Definition remediation_for (w : World) (round : Z) (issue : Issue)
    : list Action :=
  let table := i_table issue in
  let severity := i_severity issue in
  if String.eqb severity "stale" then
    if contains "opensky" table then
      [ _run_remediation w round issue "Re-ingest OpenSky positions"
          [sys_executable w; "-m"; "src.ingestion.opensky_producer"; "--once"]
          None ]
    else if contains "weather" table then
      [ _run_remediation w round issue "Re-ingest NOAA weather"
          [sys_executable w; "-m"; "src.ingestion.noaa_weather_producer"; "--once"]
          None ]
    else if contains "faa" table then
      [ _run_remediation w round issue "Re-ingest FAA status"
          [sys_executable w; "-m"; "src.ingestion.faa_asws_producer"; "--once"]
          None ]
    else []
  else if String.eqb severity "critical"
          && (contains "mart_" table || contains "stg_" table) then
    [ _run_remediation w round issue "Rebuild dbt models"
        [sys_executable w; "run_models.py"] (Some (dbt_project_dir w)) ]
  else if String.eqb severity "warning" then
    [ {| act_action := "Monitor " ++ table ++ " — row count below expected";
         act_command := None;
         act_status := "logged";
         act_output := "No automatic action taken. Will check again next cycle." |} ]
  else [].

Definition no_remediation : Action :=
  {| act_action := "No remediation needed";
     act_command := None;
     act_status := "skipped";
     act_output := "All systems healthy." |}.

(** Node 4. *)
Definition auto_remediate (w : World) (state : PipelineState) : PipelineState :=
  let actions :=
    flat_map (remediation_for w (iteration state)) (issues_detected state) in
  let actions :=
    match actions with
    | [] => [no_remediation]
    | _ :: _ => actions
    end in
  {| health_checks := health_checks state;
     issues_detected := issues_detected state;
     diagnosis := diagnosis state;
     actions_taken := actions;
     final_report := final_report state;
     iteration := iteration state |}.

(** The three values of [overall] in [generate_report]. *)
Inductive Overall : Type := HEALTHY | DEGRADED | CRITICAL.

Definition count_status (status : string) (checks : list HealthCheck) : nat :=
  List.length (filter (fun c => String.eqb (hc_status c) status) checks).

Definition overall_of (checks : list HealthCheck) : Overall :=
  let total := List.length checks in
  let healthy := count_status "healthy" checks in
  let critical := count_status "critical" checks in
  if (healthy =? total)%nat then HEALTHY
  else if (critical =? 0)%nat then DEGRADED
  else CRITICAL.

(** Node 5.  The text is the world's rendering of the state. *)
Definition generate_report (w : World) (state : PipelineState) : PipelineState :=
  {| health_checks := health_checks state;
     issues_detected := issues_detected state;
     diagnosis := diagnosis state;
     actions_taken := actions_taken state;
     final_report := render w state;
     iteration := iteration state |}.

(** The decision after [detect_issues]: the name of the next node. *)
Definition should_remediate (state : PipelineState) : string :=
  match issues_detected state with
  | [] => "generate_report"
  | _ :: _ => if (2 <? iteration state)%Z then "generate_report" else "diagnose"
  end.

(** The graph of [build_agent_graph]. *)
Inductive Node : Type :=
  | node_check_health
  | node_detect_issues
  | node_diagnose
  | node_remediate
  | node_generate_report.

Definition run_node (w : World) (n : Node) (state : PipelineState)
    : PipelineState :=
  match n with
  | node_check_health => check_pipeline_health w state
  | node_detect_issues => detect_issues state
  | node_diagnose => diagnose_with_llm w state
  | node_remediate => auto_remediate w state
  | node_generate_report => generate_report w state
  end.

(** The edges; [None] is END.  [state] is the state the node returned. *)
Definition next_node (n : Node) (state : PipelineState) : option Node :=
  match n with
  | node_check_health => Some node_detect_issues
  | node_detect_issues =>
      if String.eqb (should_remediate state) "diagnose"
      then Some node_diagnose
      else Some node_generate_report
  | node_diagnose => Some node_remediate
  | node_remediate => Some node_check_health
  | node_generate_report => None
  end.

(** [agent.invoke]: nodes run one after the other along the edges, from
    [n] until END; the result is the final state and the nodes that ran. *)
Fixpoint invoke_from (fuel : nat) (w : World) (n : Node) (state : PipelineState)
    : option (PipelineState * list Node) :=
  match fuel with
  | O => None
  | S fuel' =>
      let state' := run_node w n state in
      match next_node n state' with
      | None => Some (state', [n])
      | Some n' =>
          match invoke_from fuel' w n' state' with
          | Some (final, trace) => Some (final, n :: trace)
          | None => None
          end
      end
  end.

(** The entry point is [check_health]. *)
Definition invoke (fuel : nat) (w : World) (state : PipelineState)
    : option (PipelineState * list Node) :=
  invoke_from fuel w node_check_health state.

(** [initial_state] of [main]. *)
Definition initial_state : PipelineState :=
  {| health_checks := [];
     issues_detected := [];
     diagnosis := "";
     actions_taken := [];
     final_report := "";
     iteration := 0 |}.

Definition is_remediate (n : Node) : bool :=
  match n with node_remediate => true | _ => false end.

Definition is_check (n : Node) : bool :=
  match n with node_check_health => true | _ => false end.
End Agent.

(** An issue that is critical on a table that no model builds. *)
Definition critical_raw (issue : Issue) : Prop :=
  i_severity issue = "critical"%string /\
  contains "mart_" (i_table issue) = false /\
  contains "stg_" (i_table issue) = false.

(** A world in which the weather feed stays stale whatever is done. *)
Definition stubborn_world : World :=
  {| observed := fun _ =>
       [ {| hc_table := "raw_weather_observations"%string;
            hc_status := "stale"%string;
            hc_issues := ["Data is 9.0 hours old (max allowed: 6h)"%string];
            hc_row_count := 30;
            hc_latest_record := Some "2025-11-01T00:00:00+00:00"%string |} ];
     llm_answer := fun _ => "GOOGLE_API_KEY not set."%string;
     run_command := fun _ _ _ _ => ("failed"%string, ""%string);
     render := fun _ => ""%string;
     sys_executable := "python"%string;
     PROJECT_ROOT := "."%string;
     dbt_project_dir := "./src/dbt_project"%string |}.

(** A world in which every table is found healthy. *)
Definition calm_world : World :=
  {| observed := fun _ =>
       [ {| hc_table := "raw_bts_flights"%string;
            hc_status := "healthy"%string;
            hc_issues := ["All checks passed"%string];
            hc_row_count := 1700000;
            hc_latest_record := None |};
         {| hc_table := "raw_weather_observations"%string;
            hc_status := "healthy"%string;
            hc_issues := ["All checks passed"%string];
            hc_row_count := 30;
            hc_latest_record := Some "2025-11-01T00:00:00+00:00"%string |} ];
     llm_answer := fun _ => ""%string;
     run_command := fun _ _ _ _ => ("success"%string, ""%string);
     render := fun _ => ""%string;
     sys_executable := "python"%string;
     PROJECT_ROOT := "."%string;
     dbt_project_dir := "./src/dbt_project"%string |}.

(** The flight table is empty. *)
Definition empty_flights_state : PipelineState :=
  {| health_checks := [];
     issues_detected :=
       [ {| i_table := "raw_bts_flights"%string;
            i_severity := "critical"%string;
            i_problems := ["Table is EMPTY"%string];
            i_row_count := 0;
            i_latest_record := None |} ];
     diagnosis := ""%string;
     actions_taken := [];
     final_report := ""%string;
     iteration := 1 |}.

(** ** Rationals, truncation and rounding *)

(** Case on one conjunct of a WHERE clause; the row is dropped where the
    conjunct is not TRUE. *)
Ltac conjunct c E := destruct c eqn:E; [|reflexivity].

Lemma Qlt_bool_iff (x y : Q) : Qlt_bool x y = true <-> (x < y)%Q.
Proof.
  unfold Qlt_bool. rewrite negb_true_iff. split.
  - intros H. apply Qnot_le_lt. intros Hle.
    apply Qle_bool_iff in Hle. congruence.
  - intros H. destruct (Qle_bool y x) eqn:E; [|reflexivity].
    apply Qle_bool_iff in E. exfalso. apply (Qlt_not_le _ _ H E).
Qed.

Lemma py_int_nonneg_floor (x : Q) : (0 <= x)%Q -> py_int x = Qfloor x.
Proof.
  destruct x as [n d]. unfold Qle, py_int, Qfloor. simpl. intros H.
  apply Z.quot_div_nonneg; lia.
Qed.

Lemma py_int_le (x : Q) : (0 <= x)%Q -> (inject_Z (py_int x) <= x)%Q.
Proof. intros H. rewrite (py_int_nonneg_floor x H). apply Qfloor_le. Qed.

Lemma py_int_mono (x y : Q) :
  (0 <= x)%Q -> (x <= y)%Q -> py_int x <= py_int y.
Proof.
  intros Hx Hxy.
  rewrite (py_int_nonneg_floor x Hx), (py_int_nonneg_floor y) by lra.
  now apply Qfloor_resp_le.
Qed.

Lemma py_int_pos (x : Q) : (0 <= x)%Q -> 0 <= py_int x.
Proof.
  intros H. rewrite (py_int_nonneg_floor x H).
  change 0 with (Qfloor 0). now apply Qfloor_resp_le.
Qed.

(** ** The matcher, pair by pair *)

Lemma cascade_on_true (hi : Z) (o : OutboundFlight) (a : DelayedArrival) :
  cascade_on hi o a = true <->
  exists dep arr,
    o_dep_minutes o = Some dep /\ a_arr_minutes a = Some arr /\
    sql_eq_text (o_airline o) (a_airline a) = true /\
    arr < dep /\ 20 <= dep - arr /\ dep - arr <= hi /\
    (inject_Z (dep - arr) < a_arr_delay a)%Q.
Proof.
  unfold cascade_on.
  destruct (o_dep_minutes o) as [dep|], (a_arr_minutes a) as [arr|]; simpl;
    rewrite ?andb_false_r; simpl.
  - rewrite !andb_true_iff, Z.ltb_lt, !Z.leb_le, Qlt_bool_iff. split.
    + intros [[[H1 H2] [H3 H4]] H5]. exists dep, arr. tauto.
    + intros (dep' & arr' & E1 & E2 & H). injection E1 as <-. injection E2 as <-.
      tauto.
  - split; [discriminate|]. intros (? & ? & _ & E & _). discriminate.
  - split; [discriminate|]. intros (? & ? & E & _). discriminate.
  - split; [discriminate|]. intros (? & ? & E & _). discriminate.
Qed.

Lemma in_cascade_pairs (hi : Z) (os : list OutboundFlight)
    (arrs : list DelayedArrival) (o : OutboundFlight) (a : DelayedArrival) :
  In (o, a) (cascade_pairs hi os arrs) <->
  In o os /\ In a arrs /\ cascade_on hi o a = true.
Proof.
  unfold cascade_pairs. rewrite in_flat_map. split.
  - intros (o' & Ho & Hin). apply in_map_iff in Hin.
    destruct Hin as (a' & E & Ha). injection E as <- <-.
    apply filter_In in Ha. tauto.
  - intros (Ho & Ha & Hc). exists o. split; [assumption|].
    apply in_map. apply filter_In. tauto.
Qed.

Lemma in_matches_of (hi : Z) (os : list OutboundFlight)
    (arrs : list DelayedArrival) (mt : CascadeMatch) :
  In mt (matches_of hi os arrs) <->
  exists o a, mt = match_row (o, a) /\
              In o os /\ In a arrs /\ cascade_on hi o a = true.
Proof.
  unfold matches_of. rewrite in_map_iff. split.
  - intros ([o a] & E & Hin). apply in_cascade_pairs in Hin.
    exists o, a. split; [now symmetry | assumption].
  - intros (o & a & E & H). exists (o, a). split; [now symmetry|].
    now apply in_cascade_pairs.
Qed.

(** ** Invariants of accepted matches *)

(** C1.  Every row of [cascade_matches] comes from an outbound flight and a
    delayed arrival whose scheduled departure (minutes since midnight) is
    strictly after the scheduled arrival, whose gap is at least 20 and at most
    [min_turnaround + trigger_delay], and whose arrival delay strictly exceeds
    the gap.  The trigger delay is non-negative, as the interface requires. *)
Theorem accepted_match_invariants (con : Connection) (airport date : string)
    (delay_minutes : Q) (min_turnaround_minutes : Z) (mt : CascadeMatch) :
  (0 <= delay_minutes)%Q ->
  In mt (cascade_matches con airport date delay_minutes min_turnaround_minutes) ->
  exists o a dep arr,
    In o (outbound_flights con airport date) /\
    In a (delayed_arrivals con airport date) /\
    mt = match_row (o, a) /\
    o_dep_minutes o = Some dep /\ a_arr_minutes a = Some arr /\
    m_turnaround_gap mt = Some (dep - arr) /\
    m_inbound_delay mt = a_arr_delay a /\
    arr < dep /\
    20 <= dep - arr /\
    (inject_Z (dep - arr) <= inject_Z min_turnaround_minutes + delay_minutes)%Q /\
    (inject_Z (dep - arr) < m_inbound_delay mt)%Q.
Proof.
  intros Hd Hin. unfold cascade_matches in Hin.
  apply in_matches_of in Hin. destruct Hin as (o & a & -> & Ho & Ha & Hc).
  apply cascade_on_true in Hc.
  destruct Hc as (dep & arr & Edep & Earr & _ & Hlt & Hlo & Hhi & Hdelay).
  exists o, a, dep, arr. simpl. rewrite Edep, Earr. simpl.
  repeat split; try assumption.
  unfold window_hi in Hhi.
  apply Qle_trans with (inject_Z (min_turnaround_minutes + py_int delay_minutes)).
  - rewrite <- Zle_Qle. exact Hhi.
  - rewrite inject_Z_plus. apply Qplus_le_r. now apply py_int_le.
Qed.

Lemma accepted_match_invariants_witness :
  (0 <= 90)%Q /\
  In sample_match (cascade_matches snapshot_hub ORD day 90 45) /\
  exists o a dep arr,
    In o (outbound_flights snapshot_hub ORD day) /\
    In a (delayed_arrivals snapshot_hub ORD day) /\
    sample_match = match_row (o, a) /\
    o_dep_minutes o = Some dep /\ a_arr_minutes a = Some arr /\
    m_turnaround_gap sample_match = Some (dep - arr) /\
    m_inbound_delay sample_match = a_arr_delay a /\
    arr < dep /\
    20 <= dep - arr /\
    (inject_Z (dep - arr) <= inject_Z 45 + 90)%Q /\
    (inject_Z (dep - arr) < m_inbound_delay sample_match)%Q.
Proof.
  assert (Hd : (0 <= 90)%Q) by (unfold Qle; simpl; lia).
  assert (Hin : In sample_match (cascade_matches snapshot_hub ORD day 90 45))
    by (vm_compute; left; reflexivity).
  split; [exact Hd|]. split; [exact Hin|].
  exact (accepted_match_invariants snapshot_hub ORD day 90 45 sample_match Hd Hin).
Defined.

(** ** The delay threshold of the inbound side *)

Lemma cascade_on_delay (hi : Z) (o : OutboundFlight) (a : DelayedArrival) :
  cascade_on hi o a = true -> (20 < a_arr_delay a)%Q.
Proof.
  intros H. apply cascade_on_true in H.
  destruct H as (dep & arr & _ & _ & _ & _ & Hlo & _ & Hdelay).
  apply Qle_lt_trans with (inject_Z (dep - arr)); [|exact Hdelay].
  change 20%Q with (inject_Z 20). now rewrite <- Zle_Qle.
Qed.

Lemma filter_flat_map {A B : Type} (p : B -> bool) (f : A -> list B) (l : list A) :
  filter p (flat_map f l) = flat_map (fun x => filter p (f x)) l.
Proof.
  induction l as [|x l IH]; simpl; [reflexivity|].
  now rewrite filter_app, IH.
Qed.

(** What the matcher keeps of the inbound side does not depend on whether the
    side was cut at [>= 15] or at [> 0]. *)
Lemma matched_arrivals_threshold (hi : Z) (o : OutboundFlight)
    (con : Connection) (airport date : string) :
  filter (cascade_on hi o) (delayed_arrivals con airport date) =
  filter (cascade_on hi o) (positive_arrivals con airport date).
Proof.
  unfold delayed_arrivals, positive_arrivals, arrivals_where.
  rewrite !filter_flat_map. apply flat_map_ext. intros r.
  destruct (arrdelayminutes r) as [d|]; [|reflexivity].
  destruct (sql_eq_param (dest r) airport && sql_eq_param (flightdate r) date);
    [|reflexivity].
  simpl.
  set (a := {| a_airline := iata_code_reporting_airline r;
               a_arr_minutes := hhmm_to_minutes (crsarrtime r);
               a_arr_delay := d;
               a_arrived_from := origin r |}).
  destruct (cascade_on hi o a) eqn:Hc.
  - assert (Hd : (20 < d)%Q) by exact (cascade_on_delay hi o a Hc).
    assert (H15 : Qle_bool 15 d = true) by (apply Qle_bool_iff; lra).
    assert (H0 : Qlt_bool 0 d = true) by (apply Qlt_bool_iff; lra).
    rewrite H15, H0. simpl. fold a. now rewrite Hc.
  - destruct (Qle_bool 15 d), (Qlt_bool 0 d); simpl; fold a; rewrite ?Hc;
      reflexivity.
Qed.

(** C10.  An accepted match has an inbound delay strictly above 20 minutes;
    hence cutting the inbound side at [>= 15], as the query does, yields the
    same matches, the same cascade count and the same per-destination rows as
    taking every arrival with a positive delay. *)
Theorem delay_threshold_is_harmless (con : Connection) (airport date : string)
    (delay_minutes : Q) (min_turnaround_minutes : Z) :
  let ms := cascade_matches con airport date delay_minutes min_turnaround_minutes in
  let ms' :=
    cascade_matches_positive con airport date delay_minutes min_turnaround_minutes in
  (forall mt, In mt ms -> (20 < m_inbound_delay mt)%Q) /\
  ms' = ms /\
  n_cascade_of (order_by_affected_desc (group_by_dest ms')) =
    cascade_affected_flights
      (calculate_cascade_impact con airport date delay_minutes
         min_turnaround_minutes) /\
  order_by_affected_desc (group_by_dest ms') =
    cascade_df con airport date delay_minutes min_turnaround_minutes.
Proof.
  intros ms ms'.
  assert (E : ms' = ms).
  { unfold ms, ms', cascade_matches, cascade_matches_positive, matches_of,
      cascade_pairs.
    f_equal. apply flat_map_ext. intros o.
    now rewrite matched_arrivals_threshold. }
  split; [|split; [exact E|split]].
  - intros mt Hin. unfold ms, cascade_matches in Hin.
    apply in_matches_of in Hin. destruct Hin as (o & a & -> & _ & _ & Hc).
    simpl. exact (cascade_on_delay _ o a Hc).
  - rewrite E. reflexivity.
  - rewrite E. reflexivity.
Qed.

(** ** Grouping: the per-destination counts add up to the number of matches *)

Lemma key_eqb_eq (x y : option string) : key_eqb x y = true <-> x = y.
Proof.
  destruct x as [s|], y as [t|]; simpl; try (split; [discriminate|discriminate]).
  - rewrite String.eqb_eq. split; [now intros ->|now intros [= ->]].
  - tauto.
Qed.

Lemma key_eqb_refl (x : option string) : key_eqb x x = true.
Proof. now apply key_eqb_eq. Qed.

Section Grouping.
Variable A : Type.
Variable key : A -> option string.

Lemma group_size_without (k0 k : option string) (l : list A) :
  group_size key k (filter (fun m => negb (key_eqb k0 (key m))) l) =
  if key_eqb k0 k then 0%nat else group_size key k l.
Proof.
  unfold group_size. induction l as [|m l IH]; simpl.
  - now destruct (key_eqb k0 k).
  - destruct (key_eqb k0 (key m)) eqn:E0; simpl.
    + rewrite IH. destruct (key_eqb k0 k) eqn:E; [reflexivity|].
      destruct (key_eqb k (key m)) eqn:E1; [|reflexivity].
      apply key_eqb_eq in E0, E1. subst. rewrite key_eqb_refl in E.
      discriminate.
    + destruct (key_eqb k (key m)) eqn:E1; simpl; rewrite IH.
      * destruct (key_eqb k0 k) eqn:E; [|reflexivity].
        apply key_eqb_eq in E, E1. subst. rewrite key_eqb_refl in E0.
        discriminate.
      * reflexivity.
Qed.

Lemma sizes_without (k0 : option string) (l : list A)
    (ds : list (option string)) :
  list_sum (map (fun k => group_size key k l)
              (filter (fun k' => negb (key_eqb k0 k')) ds)) =
  list_sum (map (fun k => group_size key k
                            (filter (fun m => negb (key_eqb k0 (key m))) l)) ds).
Proof.
  induction ds as [|k ds IH]; simpl; [reflexivity|].
  rewrite group_size_without.
  destruct (key_eqb k0 k); simpl; now rewrite IH.
Qed.

Lemma split_off_group (k0 : option string) (ks : list (option string))
    (l : list A) :
  (group_size key k0 l +
   List.length (keyed_in key ks (filter (fun m => negb (key_eqb k0 (key m))) l)))%nat =
  List.length (keyed_in key (k0 :: ks) l).
Proof.
  unfold group_size, keyed_in. induction l as [|m l IH]; simpl in *;
    [reflexivity|].
  destruct (key_eqb k0 (key m)); simpl.
  - now rewrite IH.
  - destruct (existsb (fun k => key_eqb k (key m)) ks); simpl; rewrite <- IH; lia.
Qed.

Lemma sizes_of_distinct (ks : list (option string)) :
  forall l : list A,
    list_sum (map (fun k => group_size key k l) (distinct ks)) =
    List.length (keyed_in key ks l).
Proof.
  induction ks as [|k0 ks IH]; intros l.
  - simpl. unfold keyed_in. simpl. induction l; simpl; auto.
  - simpl. rewrite sizes_without, IH. apply split_off_group.
Qed.

Lemma keyed_in_own_keys (l : list A) : keyed_in key (map key l) l = l.
Proof.
  unfold keyed_in. apply forallb_filter_id. apply forallb_forall.
  intros m Hm. apply existsb_exists. exists (key m).
  split; [now apply in_map | apply key_eqb_refl].
Qed.

Lemma sizes_add_up (l : list A) :
  list_sum (map (fun k => group_size key k l) (distinct (map key l))) =
  List.length l.
Proof. now rewrite sizes_of_distinct, keyed_in_own_keys. Qed.
End Grouping.

(** ** ORDER BY: a permutation, sorted by descending count *)

Lemma insert_desc_perm (r : DestRow) (l : list DestRow) :
  Permutation (insert_desc r l) (r :: l).
Proof.
  induction l as [|h t IH]; simpl; [apply Permutation_refl|].
  destruct (affected_flights h <=? affected_flights r).
  - apply Permutation_refl.
  - apply perm_trans with (h :: r :: t); [now apply perm_skip | apply perm_swap].
Qed.

Lemma order_by_perm (l : list DestRow) :
  Permutation (order_by_affected_desc l) l.
Proof.
  induction l as [|r l IH]; simpl; [apply perm_nil|].
  apply perm_trans with (r :: order_by_affected_desc l).
  - apply insert_desc_perm.
  - now apply perm_skip.
Qed.

Lemma insert_desc_hd (r x : DestRow) (l : list DestRow) :
  count_ge x r -> HdRel count_ge x l -> HdRel count_ge x (insert_desc r l).
Proof.
  intros Hxr Hl. destruct l as [|h t]; simpl.
  - now constructor.
  - destruct (affected_flights h <=? affected_flights r).
    + now constructor.
    + constructor. now inversion Hl.
Qed.

Lemma insert_desc_sorted (r : DestRow) (l : list DestRow) :
  Sorted count_ge l -> Sorted count_ge (insert_desc r l).
Proof.
  induction 1 as [|h t Ht IH Hh]; simpl.
  - repeat constructor.
  - destruct (affected_flights h <=? affected_flights r) eqn:E.
    + apply Z.leb_le in E. constructor; [now constructor|].
      constructor. exact E.
    + apply Z.leb_gt in E. constructor; [exact IH|].
      apply insert_desc_hd; [unfold count_ge; lia | exact Hh].
Qed.

Lemma order_by_sorted (l : list DestRow) :
  Sorted count_ge (order_by_affected_desc l).
Proof.
  induction l as [|r l IH]; simpl; [constructor|].
  now apply insert_desc_sorted.
Qed.

Lemma count_ge_trans : Relations_1.Transitive count_ge.
Proof. intros x y z. unfold count_ge. lia. Qed.

Lemma order_by_strongly_sorted (l : list DestRow) :
  StronglySorted count_ge (order_by_affected_desc l).
Proof.
  apply Sorted_StronglySorted; [exact count_ge_trans | apply order_by_sorted].
Qed.

(** ** The cascade count is the number of matches *)

Lemma zsum_perm (l l' : list Z) : Permutation l l' -> zsum l = zsum l'.
Proof.
  unfold zsum. induction 1; simpl; lia.
Qed.

Lemma zsum_of_nat (l : list nat) : zsum (map Z.of_nat l) = Z.of_nat (list_sum l).
Proof.
  induction l as [|n l IH]; simpl; [reflexivity|]. rewrite IH. lia.
Qed.

Lemma n_cascade_of_zsum (df : list DestRow) :
  n_cascade_of df = zsum (map affected_flights df).
Proof. now destruct df. Qed.

Lemma affected_dests_of_map (df : list DestRow) :
  affected_dests_of df = map outbound_dest df.
Proof. now destruct df. Qed.

Lemma group_by_dest_counts (ms : list CascadeMatch) :
  zsum (map affected_flights (group_by_dest ms)) = Z.of_nat (List.length ms).
Proof.
  unfold group_by_dest. rewrite map_map. simpl.
  rewrite <- (sizes_add_up _ m_outbound_dest ms), <- zsum_of_nat, map_map.
  reflexivity.
Qed.

Lemma n_cascade_of_frame (ms : list CascadeMatch) :
  n_cascade_of (order_by_affected_desc (group_by_dest ms)) =
  Z.of_nat (List.length ms).
Proof.
  rewrite n_cascade_of_zsum, <- group_by_dest_counts.
  apply zsum_perm, Permutation_map, order_by_perm.
Qed.

Lemma cascade_count_is_match_count (con : Connection) (airport date : string)
    (delay_minutes : Q) (min_turnaround_minutes : Z) :
  cascade_affected_flights
    (calculate_cascade_impact con airport date delay_minutes
       min_turnaround_minutes) =
  Z.of_nat
    (List.length
       (cascade_matches con airport date delay_minutes min_turnaround_minutes)).
Proof. simpl. unfold cascade_df. apply n_cascade_of_frame. Qed.

(** ** Widening the window only adds matches *)

Lemma filter_length_le {A : Type} (p q : A -> bool) (l : list A) :
  (forall x, p x = true -> q x = true) ->
  (List.length (filter p l) <= List.length (filter q l))%nat.
Proof.
  intros Hpq. induction l as [|x l IH]; simpl; [lia|].
  destruct (p x) eqn:Ep.
  - rewrite (Hpq x Ep). simpl. lia.
  - destruct (q x); simpl; lia.
Qed.

Lemma cascade_on_widen (hi hi' : Z) (o : OutboundFlight) (a : DelayedArrival) :
  hi <= hi' -> cascade_on hi o a = true -> cascade_on hi' o a = true.
Proof.
  intros Hle H. apply cascade_on_true in H. apply cascade_on_true.
  destruct H as (dep & arr & H1 & H2 & H3 & H4 & H5 & H6 & H7).
  exists dep, arr. repeat split; try assumption. lia.
Qed.

Lemma cascade_pairs_widen (hi hi' : Z) (os : list OutboundFlight)
    (arrs : list DelayedArrival) :
  hi <= hi' ->
  (List.length (cascade_pairs hi os arrs) <=
   List.length (cascade_pairs hi' os arrs))%nat.
Proof.
  intros Hle. unfold cascade_pairs.
  induction os as [|o os IH]; simpl; [lia|].
  rewrite !length_app, !length_map.
  pose proof (filter_length_le (cascade_on hi o) (cascade_on hi' o) arrs
                (fun a => cascade_on_widen hi hi' o a Hle)).
  lia.
Qed.

Lemma matches_widen (hi hi' : Z) (os : list OutboundFlight)
    (arrs : list DelayedArrival) :
  hi <= hi' ->
  (List.length (matches_of hi os arrs) <=
   List.length (matches_of hi' os arrs))%nat.
Proof.
  intros Hle. unfold matches_of. rewrite !length_map.
  now apply cascade_pairs_widen.
Qed.

(** C5.  With airport, date, trigger delay and snapshot fixed,
    [cascade_affected_flights] does not decrease when
    [min_turnaround_minutes] grows. *)
Theorem cascade_monotone_in_turnaround (con : Connection)
    (airport date : string) (delay_minutes : Q) (m1 m2 : Z) :
  m1 <= m2 ->
  cascade_affected_flights
    (calculate_cascade_impact con airport date delay_minutes m1) <=
  cascade_affected_flights
    (calculate_cascade_impact con airport date delay_minutes m2).
Proof.
  intros Hle. rewrite !cascade_count_is_match_count.
  apply Nat2Z.inj_le. unfold cascade_matches.
  apply matches_widen. unfold window_hi. lia.
Qed.

Lemma cascade_monotone_in_turnaround_witness :
  20 <= 45 /\
  cascade_affected_flights (calculate_cascade_impact snapshot_hub ORD day 15 20) <=
  cascade_affected_flights (calculate_cascade_impact snapshot_hub ORD day 15 45).
Proof.
  assert (H : 20 <= 45) by lia.
  split; [exact H|].
  exact (cascade_monotone_in_turnaround snapshot_hub ORD day 15 20 45 H).
Defined.

(** ** Nothing delayed, nothing counted *)

Lemma sql_eq_param_true (col : option string) (p : string) :
  sql_eq_param col p = true <-> col = Some p.
Proof.
  destruct col as [s|]; simpl.
  - rewrite String.eqb_eq. split; [now intros ->|now intros [= ->]].
  - split; discriminate.
Qed.

Lemma filter_nil_when {A : Type} (p : A -> bool) (l : list A) :
  (forall x, In x l -> p x = false) -> filter p l = [].
Proof.
  induction l as [|x l IH]; simpl; intros H; [reflexivity|].
  rewrite (H x (or_introl eq_refl)). apply IH. intros y Hy. apply H. now right.
Qed.

Lemma flat_map_nil_when {A B : Type} (f : A -> list B) (l : list A) :
  (forall x, In x l -> f x = []) -> flat_map f l = [].
Proof.
  induction l as [|x l IH]; simpl; intros H; [reflexivity|].
  rewrite (H x (or_introl eq_refl)). apply IH. intros y Hy. apply H. now right.
Qed.

Lemma matches_of_no_arrivals (hi : Z) (os : list OutboundFlight) :
  matches_of hi os [] = [].
Proof.
  unfold matches_of, cascade_pairs.
  rewrite flat_map_nil_when; [reflexivity|]. intros o _. reflexivity.
Qed.

Lemma no_delayed_inbound_direct (con : Connection) (airport date : string) :
  no_delayed_inbound con airport date -> direct_count con airport date = 0.
Proof.
  intros H. unfold direct_count. rewrite filter_nil_when; [reflexivity|].
  intros r Hr. unfold is_direct.
  conjunct (sql_eq_param (dest r) airport) Ed.
  conjunct (sql_eq_param (flightdate r) date) Ef.
  apply sql_eq_param_true in Ed, Ef. simpl.
  destruct (arrdelayminutes r) as [d|] eqn:Ea; [|reflexivity]. simpl.
  conjunct (Qlt_bool 0 d) E.
  apply Qlt_bool_iff in E. exfalso. exact (H r d Hr Ed Ef Ea E).
Qed.

Lemma no_delayed_inbound_arrivals (con : Connection) (airport date : string) :
  no_delayed_inbound con airport date -> delayed_arrivals con airport date = [].
Proof.
  intros H. unfold delayed_arrivals, arrivals_where.
  apply flat_map_nil_when. intros r Hr.
  destruct (arrdelayminutes r) as [d|] eqn:Ea; [|reflexivity].
  conjunct (sql_eq_param (dest r) airport) Ed.
  conjunct (sql_eq_param (flightdate r) date) Ef.
  apply sql_eq_param_true in Ed, Ef. simpl.
  conjunct (Qle_bool 15 d) E.
  apply Qle_bool_iff in E. exfalso. apply (H r d Hr Ed Ef Ea). lra.
Qed.

(** C9.  If the snapshot holds no inbound arrival into the airport on the
    date with a non-null positive arrival delay, both counts are 0. *)
Theorem no_delay_no_impact (con : Connection) (airport date : string)
    (delay_minutes : Q) (min_turnaround_minutes : Z) :
  no_delayed_inbound con airport date ->
  let r := calculate_cascade_impact con airport date delay_minutes
             min_turnaround_minutes in
  directly_affected_flights r = 0 /\ cascade_affected_flights r = 0.
Proof.
  intros H r. split.
  - unfold r. simpl. now apply no_delayed_inbound_direct.
  - unfold r. rewrite cascade_count_is_match_count. unfold cascade_matches.
    rewrite (no_delayed_inbound_arrivals con airport date H).
    now rewrite matches_of_no_arrivals.
Qed.

Lemma no_delay_no_impact_witness :
  no_delayed_inbound snapshot_on_time ORD day /\
  directly_affected_flights
    (calculate_cascade_impact snapshot_on_time ORD day 90 45) = 0 /\
  cascade_affected_flights
    (calculate_cascade_impact snapshot_on_time ORD day 90 45) = 0.
Proof.
  assert (H : no_delayed_inbound snapshot_on_time ORD day).
  { intros r d Hr Hd Hf Ha.
    destruct Hr as [<-|[<-|[<-|[<-|[]]]]]; simpl in Hd, Ha;
      try discriminate Hd; try discriminate Ha;
      injection Ha as <-; apply Qlt_irrefl. }
  split; [exact H|].
  exact (no_delay_no_impact snapshot_on_time ORD day 90 45 H).
Defined.

(** ** No rows for the airport and date *)

Lemma no_rows_no_delayed_inbound (con : Connection) (airport date : string) :
  no_rows con airport date -> no_delayed_inbound con airport date.
Proof.
  intros H r d Hr Hd Hf _ _. destruct (H r Hr Hf) as [Hdest _]. contradiction.
Qed.

Lemma no_rows_outbound (con : Connection) (airport date : string) :
  no_rows con airport date -> outbound_flights con airport date = [].
Proof.
  intros H. unfold outbound_flights. rewrite filter_nil_when; [reflexivity|].
  intros r Hr.
  conjunct (sql_eq_param (origin r) airport) Eo.
  conjunct (sql_eq_param (flightdate r) date) Ef.
  apply sql_eq_param_true in Eo, Ef.
  destruct (H r Hr Ef) as [_ Ho]. contradiction.
Qed.

(** C8.  When the store has no row for the airport and date, the call returns
    a result with both flight counts 0, no passengers, the three costs equal
    to 0.00 and no destinations. *)
Theorem zero_rows_zero_result (con : Connection) (airport date : string)
    (delay_minutes : Q) (min_turnaround_minutes : Z) :
  no_rows con airport date ->
  let r := calculate_cascade_impact con airport date delay_minutes
             min_turnaround_minutes in
  directly_affected_flights r = 0 /\
  cascade_affected_flights r = 0 /\
  total_affected_passengers r = 0 /\
  (estimated_passenger_cost r == 0)%Q /\
  (estimated_airline_cost r == 0)%Q /\
  (total_economic_impact r == 0)%Q /\
  affected_destinations r = [].
Proof.
  intros H r.
  assert (Hdir : direct_count con airport date = 0)
    by (apply no_delayed_inbound_direct, no_rows_no_delayed_inbound, H).
  assert (Hdf : cascade_df con airport date delay_minutes
                  min_turnaround_minutes = []).
  { unfold cascade_df, cascade_matches.
    rewrite (no_rows_outbound con airport date H). reflexivity. }
  unfold r, calculate_cascade_impact. rewrite Hdf, Hdir. simpl.
  repeat split; reflexivity.
Qed.

Lemma zero_rows_zero_result_witness :
  no_rows snapshot_hub JFK day /\
  let r := calculate_cascade_impact snapshot_hub JFK day 90 45 in
  directly_affected_flights r = 0 /\
  cascade_affected_flights r = 0 /\
  total_affected_passengers r = 0 /\
  (estimated_passenger_cost r == 0)%Q /\
  (estimated_airline_cost r == 0)%Q /\
  (total_economic_impact r == 0)%Q /\
  affected_destinations r = [].
Proof.
  assert (H : no_rows snapshot_hub JFK day).
  { intros r Hr _.
    destruct Hr as [<-|[<-|[<-|[<-|[<-|[<-|[]]]]]]]; split; discriminate. }
  split; [exact H|].
  exact (zero_rows_zero_result snapshot_hub JFK day 90 45 H).
Defined.

(** ** Rounding to the nearest, halves to even *)

Lemma round_half_even_cases (x : Q) :
  let f := Qfloor x in
  ((x - inject_Z f < 1 # 2)%Q /\ round_half_even x = f) \/
  ((1 # 2 < x - inject_Z f)%Q /\ round_half_even x = f + 1) \/
  ((x - inject_Z f == 1 # 2)%Q /\
   round_half_even x = if Z.even f then f else f + 1).
Proof.
  intros f. unfold round_half_even. fold f.
  destruct (x - inject_Z f ?= 1 # 2)%Q eqn:E.
  - right. right. split; [now apply Qeq_alt | reflexivity].
  - left. split; [now apply Qlt_alt | reflexivity].
  - right. left. split; [now apply Qgt_alt | reflexivity].
Qed.

Lemma floor_bounds (x : Q) :
  (inject_Z (Qfloor x) <= x)%Q /\ (x < inject_Z (Qfloor x) + 1)%Q.
Proof.
  split; [apply Qfloor_le|].
  pose proof (Qlt_floor x) as H. rewrite inject_Z_plus in H. exact H.
Qed.

(** The rounded value is within one half of its argument. *)
Lemma round_half_even_near (x : Q) :
  (inject_Z (round_half_even x) - (1 # 2) <= x)%Q /\
  (x <= inject_Z (round_half_even x) + (1 # 2))%Q.
Proof.
  destruct (floor_bounds x) as [Hlo Hhi].
  destruct (round_half_even_cases x) as [[H ->]|[[H ->]|[H ->]]].
  - split; lra.
  - rewrite inject_Z_plus. change (inject_Z 1) with 1%Q. split; lra.
  - destruct (Z.even (Qfloor x)).
    + split; lra.
    + rewrite inject_Z_plus. change (inject_Z 1) with 1%Q. split; lra.
Qed.

Lemma round_half_even_mono (x y : Q) :
  (x <= y)%Q -> round_half_even x <= round_half_even y.
Proof.
  intros Hxy.
  pose proof (Qfloor_resp_le x y Hxy) as Hf.
  destruct (Z.eq_dec (Qfloor x) (Qfloor y)) as [E|N].
  - destruct (round_half_even_cases x) as [[Hx ->]|[[Hx ->]|[Hx ->]]];
      destruct (round_half_even_cases y) as [[Hy ->]|[[Hy ->]|[Hy ->]]];
      rewrite <- ?E in *; try lia; try (exfalso; lra);
      destruct (Z.even (Qfloor x)); lia.
  - assert (Hx : round_half_even x <= Qfloor x + 1).
    { destruct (round_half_even_cases x) as [[_ ->]|[[_ ->]|[_ ->]]];
        try lia. destruct (Z.even (Qfloor x)); lia. }
    assert (Hy : Qfloor y <= round_half_even y).
    { destruct (round_half_even_cases y) as [[_ ->]|[[_ ->]|[_ ->]]];
        try lia. destruct (Z.even (Qfloor y)); lia. }
    lia.
Qed.

Lemma round_half_even_ext (x y : Q) :
  (x == y)%Q -> round_half_even x = round_half_even y.
Proof.
  intros E. apply Z.le_antisymm; apply round_half_even_mono; rewrite E;
    apply Qle_refl.
Qed.


Lemma py_round2_ext (x y : Q) : (x == y)%Q -> py_round2 x = py_round2 y.
Proof.
  intros E. unfold py_round2. f_equal. apply round_half_even_ext.
  now rewrite E.
Qed.


(** ** The cost model *)

Lemma direct_count_nonneg (con : Connection) (airport date : string) :
  0 <= direct_count con airport date.
Proof. unfold direct_count. lia. Qed.

Lemma total_flights_nonneg (con : Connection) (airport date : string)
    (delay_minutes : Q) (min_turnaround_minutes : Z) :
  let r := calculate_cascade_impact con airport date delay_minutes
             min_turnaround_minutes in
  0 <= directly_affected_flights r + cascade_affected_flights r.
Proof.
  intros r. unfold r. rewrite cascade_count_is_match_count. simpl.
  pose proof (direct_count_nonneg con airport date). lia.
Qed.

Lemma seats_nonneg (total_flights : Z) :
  0 <= total_flights ->
  (0 <= inject_Z (total_flights * AVG_SEATS_DOMESTIC) * AVG_LOAD_FACTOR)%Q.
Proof.
  intros H. apply Qmult_le_0_compat.
  - change 0%Q with (inject_Z 0). rewrite <- Zle_Qle.
    unfold AVG_SEATS_DOMESTIC. lia.
  - unfold AVG_LOAD_FACTOR, Qle. simpl. lia.
Qed.

Lemma total_pax_of_floor (total_flights : Z) :
  0 <= total_flights ->
  total_pax_of total_flights =
  Qfloor (inject_Z (total_flights * AVG_SEATS_DOMESTIC) * AVG_LOAD_FACTOR).
Proof.
  intros H. unfold total_pax_of. apply py_int_nonneg_floor.
  now apply seats_nonneg.
Qed.

Lemma total_pax_of_nonneg (total_flights : Z) :
  0 <= total_flights -> 0 <= total_pax_of total_flights.
Proof. intros H. apply py_int_pos. now apply seats_nonneg. Qed.

Lemma total_pax_of_mono (n1 n2 : Z) :
  0 <= n1 -> n1 <= n2 -> total_pax_of n1 <= total_pax_of n2.
Proof.
  intros H0 H. unfold total_pax_of. apply py_int_mono.
  - now apply seats_nonneg.
  - apply Qmult_le_compat_r.
    + rewrite <- Zle_Qle. unfold AVG_SEATS_DOMESTIC. lia.
    + unfold AVG_LOAD_FACTOR, Qle. simpl. lia.
Qed.



(** *** The reported costs in binary64 *)

Lemma exact_of_zero (x : float) (s : bool) :
  Prim2SF x = S754_zero s -> Binary64.exact x = Some 0%Q.
Proof. intros H. unfold Binary64.exact. now rewrite H. Qed.

Lemma py_round2_of_zero (x : float) (s : bool) :
  Prim2SF x = S754_zero s -> Binary64.py_round2 x = x.
Proof. intros H. unfold Binary64.py_round2. now rewrite H. Qed.

Lemma exact_some_cases (x : float) (q : Q) :
  Binary64.exact x = Some q ->
  (exists s, Prim2SF x = S754_zero s) \/
  (exists s m e, Prim2SF x = S754_finite s m e).
Proof.
  unfold Binary64.exact.
  destruct (Prim2SF x) as [s| | |s m e]; try discriminate; intros _.
  - left. now exists s.
  - right. now exists s, m, e.
Qed.

(** A zero times a finite double is a zero. *)
Lemma zero_times_finite (x d : float) (s : bool) (q : Q) :
  Prim2SF x = S754_zero s -> Binary64.exact d = Some q ->
  exists s', Prim2SF (PrimFloat.mul x d) = S754_zero s'.
Proof.
  intros Hx Hd. rewrite mul_spec, Hx.
  destruct (exact_some_cases d q Hd) as [(s' & ->)|(s' & m & e & ->)];
    eexists; reflexivity.
Qed.

Lemma zero_plus_zero (x y : float) (s t : bool) :
  Prim2SF x = S754_zero s -> Prim2SF y = S754_zero t ->
  exists s', Prim2SF (PrimFloat.add x y) = S754_zero s'.
Proof.
  intros Hx Hy. rewrite add_spec, Hx, Hy. destruct s, t; eexists; reflexivity.
Qed.

Lemma of_int_zero : Prim2SF (Binary64.of_int 0) = S754_zero false.
Proof. vm_compute. reflexivity. Qed.

(** No flight at a finite delay and a finite rate costs zero. *)
Lemma zero_cost (d rate : float) (q q' : Q) :
  Binary64.exact d = Some q -> Binary64.exact rate = Some q' ->
  exists s,
    Prim2SF (PrimFloat.mul (PrimFloat.mul (Binary64.of_int 0) d) rate) =
    S754_zero s.
Proof.
  intros Hd Hr.
  destruct (zero_times_finite (Binary64.of_int 0) d false q of_int_zero Hd)
    as (s & Hs).
  exact (zero_times_finite _ rate s q' Hs Hr).
Qed.

Lemma same_value_of_zeros (x y : float) (s t : bool) :
  Prim2SF x = S754_zero s -> Prim2SF y = S754_zero t ->
  Binary64.same_value (Binary64.py_round2 x) (Binary64.py_round2 y).
Proof.
  intros Hx Hy. right.
  rewrite (py_round2_of_zero x s Hx), (py_round2_of_zero y t Hy).
  split; eapply exact_of_zero; eassumption.
Qed.

(** What the function reports, in terms of the trigger delay: with no flight
    affected the delay used is 0, and so are all products. *)
Lemma reported_costs_from_trigger (con : Connection) (airport date : string)
    (delay_minutes : float) (min_turnaround_minutes : Z)
    (r : Binary64.CascadeResult) :
  Binary64.calculate_cascade_impact con airport date delay_minutes
    min_turnaround_minutes = Some r ->
  let total_flights :=
    Binary64.directly_affected_flights r + Binary64.cascade_affected_flights r in
  let pax_cost :=
    PrimFloat.mul
      (PrimFloat.mul (Binary64.of_int (Binary64.total_affected_passengers r))
         delay_minutes)
      Binary64.COST_PER_MINUTE_PASSENGER in
  let airline_cost :=
    PrimFloat.mul (PrimFloat.mul (Binary64.of_int total_flights) delay_minutes)
      Binary64.COST_PER_MINUTE_AIRLINE_OPS in
  Binary64.trigger_delay_minutes r = delay_minutes /\
  Binary64.same_value (Binary64.estimated_passenger_cost r)
    (Binary64.py_round2 pax_cost) /\
  Binary64.same_value (Binary64.estimated_airline_cost r)
    (Binary64.py_round2 airline_cost) /\
  Binary64.same_value (Binary64.total_economic_impact r)
    (Binary64.py_round2 (PrimFloat.add pax_cost airline_cost)).
Proof.
  unfold Binary64.calculate_cascade_impact.
  destruct (Binary64.exact delay_minutes) as [q|] eqn:Hd; [|discriminate].
  set (tf := direct_count con airport date
             + n_cascade_of
                 (cascade_df con airport date q min_turnaround_minutes)).
  destruct (Binary64.total_pax tf) as [pax|] eqn:Hp; [|discriminate].
  intros H. injection H as <-.
  cbn -[PrimFloat.mul PrimFloat.add Binary64.of_int Binary64.py_round2].
  fold tf.
  destruct (0 <? tf) eqn:E.
  - repeat split; left; reflexivity.
  - assert (Htf : tf = 0).
    { apply Z.ltb_ge in E.
      pose proof (total_flights_nonneg con airport date q min_turnaround_minutes)
        as Hnn. cbn in Hnn. fold tf in Hnn. lia. }
    rewrite Htf in *.
    assert (Hp0 : Binary64.total_pax 0 = Some 0) by (vm_compute; reflexivity).
    rewrite Hp0 in Hp. injection Hp as <-.
    assert (exists qp, Binary64.exact Binary64.COST_PER_MINUTE_PASSENGER = Some qp)
      as (qp & Hqp) by (eexists; vm_compute; reflexivity).
    assert (exists qa, Binary64.exact Binary64.COST_PER_MINUTE_AIRLINE_OPS = Some qa)
      as (qa & Hqa) by (eexists; vm_compute; reflexivity).
    assert (H0 : Binary64.exact (Binary64.of_int 0) = Some 0%Q)
      by (vm_compute; reflexivity).
    destruct (zero_cost delay_minutes _ q _ Hd Hqp) as (s1 & H1).
    destruct (zero_cost delay_minutes _ q _ Hd Hqa) as (s2 & H2).
    destruct (zero_cost (Binary64.of_int 0) _ 0%Q _ H0 Hqp) as (s3 & H3).
    destruct (zero_cost (Binary64.of_int 0) _ 0%Q _ H0 Hqa) as (s4 & H4).
    destruct (zero_plus_zero _ _ _ _ H1 H2) as (s5 & H5).
    destruct (zero_plus_zero _ _ _ _ H3 H4) as (s6 & H6).
    split; [reflexivity|].
    split; [|split]; eapply same_value_of_zeros; eassumption.
Qed.

(** The call returns a result for every finite delay, unless the passenger
    count is too large for [int()]. *)
Lemma binary64_result_defined (con : Connection) (airport date : string)
    (delay_minutes : float) (min_turnaround_minutes : Z) (q : Q) :
  Binary64.exact delay_minutes = Some q ->
  let r' := calculate_cascade_impact con airport date q min_turnaround_minutes in
  Binary64.total_pax
    (directly_affected_flights r' + cascade_affected_flights r') <> None ->
  exists r,
    Binary64.calculate_cascade_impact con airport date delay_minutes
      min_turnaround_minutes = Some r.
Proof.
  intros Hd r' Hp. unfold Binary64.calculate_cascade_impact. rewrite Hd.
  cbn in Hp.
  destruct (Binary64.total_pax _) as [pax|]; [eexists; reflexivity|].
  now destruct Hp.
Qed.

(** Counts and destinations are those of the rational embedding, taken at
    the exact value of the delay. *)
Lemma binary64_counts (con : Connection) (airport date : string)
    (delay_minutes : float) (min_turnaround_minutes : Z) (q : Q)
    (r : Binary64.CascadeResult) :
  Binary64.exact delay_minutes = Some q ->
  Binary64.calculate_cascade_impact con airport date delay_minutes
    min_turnaround_minutes = Some r ->
  let r' := calculate_cascade_impact con airport date q min_turnaround_minutes in
  Binary64.origin_airport r = origin_airport r' /\
  Binary64.directly_affected_flights r = directly_affected_flights r' /\
  Binary64.cascade_affected_flights r = cascade_affected_flights r' /\
  Binary64.affected_destinations r = affected_destinations r' /\
  Binary64.total_pax
    (directly_affected_flights r' + cascade_affected_flights r') =
    Some (Binary64.total_affected_passengers r).
Proof.
  intros Hd. unfold Binary64.calculate_cascade_impact. rewrite Hd.
  destruct (Binary64.total_pax _) as [pax|] eqn:Hp; [|discriminate].
  intros H. injection H as <-. repeat split; reflexivity || exact Hp.
Qed.

(** C7.  The reported passenger cost is
    [total_affected_passengers * trigger_delay * passenger_rate] and the
    reported airline cost is [total_flights * trigger_delay * airline_ops_rate],
    each computed in doubles from left to right and rounded to two decimals:
    the delay in both is the trigger delay the caller supplied, and no
    measured delay of a flight enters.  (With no flight affected the function
    multiplies by 0 instead, which gives a zero as well.) *)
Theorem costs_use_trigger_delay (con : Connection) (airport date : string)
    (delay_minutes : float) (min_turnaround_minutes : Z)
    (r : Binary64.CascadeResult) :
  Binary64.calculate_cascade_impact con airport date delay_minutes
    min_turnaround_minutes = Some r ->
  let total_flights :=
    Binary64.directly_affected_flights r + Binary64.cascade_affected_flights r in
  Binary64.trigger_delay_minutes r = delay_minutes /\
  Binary64.same_value (Binary64.estimated_passenger_cost r)
    (Binary64.py_round2
       (PrimFloat.mul
          (PrimFloat.mul
             (Binary64.of_int (Binary64.total_affected_passengers r))
             (Binary64.trigger_delay_minutes r))
          Binary64.COST_PER_MINUTE_PASSENGER)) /\
  Binary64.same_value (Binary64.estimated_airline_cost r)
    (Binary64.py_round2
       (PrimFloat.mul
          (PrimFloat.mul (Binary64.of_int total_flights)
             (Binary64.trigger_delay_minutes r))
          Binary64.COST_PER_MINUTE_AIRLINE_OPS)).
Proof.
  intros H total_flights.
  destruct (reported_costs_from_trigger con airport date delay_minutes
              min_turnaround_minutes r H) as (Ht & Hp & Ha & _).
  rewrite Ht. auto.
Qed.

Lemma costs_use_trigger_delay_witness :
  Binary64.calculate_cascade_impact snapshot_hub ORD day (Binary64.of_int 90) 45 =
    Some hub_result_90 /\
  Binary64.trigger_delay_minutes hub_result_90 = Binary64.of_int 90 /\
  Binary64.same_value (Binary64.estimated_passenger_cost hub_result_90)
    (Binary64.py_round2
       (PrimFloat.mul
          (PrimFloat.mul (Binary64.of_int 696)
             (Binary64.trigger_delay_minutes hub_result_90))
          Binary64.COST_PER_MINUTE_PASSENGER)) /\
  Binary64.same_value (Binary64.estimated_airline_cost hub_result_90)
    (Binary64.py_round2
       (PrimFloat.mul
          (PrimFloat.mul (Binary64.of_int (2 + 3))
             (Binary64.trigger_delay_minutes hub_result_90))
          Binary64.COST_PER_MINUTE_AIRLINE_OPS)).
Proof.
  assert (H : Binary64.calculate_cascade_impact snapshot_hub ORD day
                (Binary64.of_int 90) 45 = Some hub_result_90)
    by (vm_compute; reflexivity).
  split; [exact H|].
  exact (costs_use_trigger_delay snapshot_hub ORD day (Binary64.of_int 90) 45
           hub_result_90 H).
Defined.

(** ** Passenger count: truncated, not rounded *)

(** C2, as stated, fails: with three affected flights the count is
    [int(417.6) = 417], while rounding gives 418. *)
Lemma passengers_not_rounded :
  let r := calculate_cascade_impact snapshot_three ORD day 90 45 in
  let total_flights :=
    directly_affected_flights r + cascade_affected_flights r in
  total_flights = 3 /\
  total_affected_passengers r = 417 /\
  round_half_even
    (inject_Z total_flights * inject_Z AVG_SEATS_DOMESTIC * AVG_LOAD_FACTOR) = 418 /\
  total_affected_passengers r <>
  round_half_even
    (inject_Z total_flights * inject_Z AVG_SEATS_DOMESTIC * AVG_LOAD_FACTOR).
Proof. vm_compute. repeat split; discriminate. Qed.

(** C2, amended.  The reported passenger count is
    [total_flights * avg_seats * load_factor] cut down to an integer (the
    floor, as the product is never negative), where [total_flights] is the sum
    of the two reported counts; it is never negative. *)
Theorem passengers_are_truncated (con : Connection) (airport date : string)
    (delay_minutes : Q) (min_turnaround_minutes : Z) :
  let r := calculate_cascade_impact con airport date delay_minutes
             min_turnaround_minutes in
  let total_flights :=
    directly_affected_flights r + cascade_affected_flights r in
  total_affected_passengers r =
    Qfloor (inject_Z total_flights * inject_Z AVG_SEATS_DOMESTIC
            * AVG_LOAD_FACTOR) /\
  0 <= total_affected_passengers r.
Proof.
  intros r total_flights.
  pose proof (total_flights_nonneg con airport date delay_minutes
                min_turnaround_minutes) as Hnn.
  split.
  - change (total_affected_passengers r) with (total_pax_of total_flights).
    rewrite (total_pax_of_floor total_flights Hnn).
    now rewrite inject_Z_mult.
  - apply total_pax_of_nonneg. exact Hnn.
Qed.

(** ** The total is rounded on its own *)

(** C3, as stated, fails: one affected flight and a trigger delay of 30.1
    minutes give the doubles written 3096.09 and 2061.25 for the parts, whose
    sum is 5157.34, and 5157.33 for the total, which is the rounding of the
    sum of the unrounded parts.  The total is neither the floating point sum
    of the two reported parts nor their exact sum. *)
Lemma total_is_not_sum_of_rounded_parts :
  let r := one_result_30_1 in
  Binary64.calculate_cascade_impact snapshot_one ORD day
    (Binary64.decimal 301 10) 45 = Some r /\
  PrimFloat.eqb (Binary64.total_economic_impact r)
    (PrimFloat.add (Binary64.estimated_passenger_cost r)
       (Binary64.estimated_airline_cost r)) = false /\
  (exists p a t,
     Binary64.exact (Binary64.estimated_passenger_cost r) = Some p /\
     Binary64.exact (Binary64.estimated_airline_cost r) = Some a /\
     Binary64.exact (Binary64.total_economic_impact r) = Some t /\
     (1 # 200 < p + a - t)%Q).
Proof.
  split; [vm_compute; reflexivity|]. split; [vm_compute; reflexivity|].
  do 3 eexists. repeat split; try (vm_compute; reflexivity).
Qed.

(** C3, amended.  Passenger cost and airline cost are the products of the
    passenger count, respectively the flight count, with one delay, the
    trigger delay, and their rate, and each is reported rounded to two
    decimals; the reported total is the rounding of the floating point sum
    of the two unrounded costs. *)
Theorem total_is_rounded_sum (con : Connection) (airport date : string)
    (delay_minutes : float) (min_turnaround_minutes : Z)
    (r : Binary64.CascadeResult) :
  Binary64.calculate_cascade_impact con airport date delay_minutes
    min_turnaround_minutes = Some r ->
  let total_flights :=
    Binary64.directly_affected_flights r + Binary64.cascade_affected_flights r in
  let pax_cost :=
    PrimFloat.mul
      (PrimFloat.mul (Binary64.of_int (Binary64.total_affected_passengers r))
         delay_minutes)
      Binary64.COST_PER_MINUTE_PASSENGER in
  let airline_cost :=
    PrimFloat.mul (PrimFloat.mul (Binary64.of_int total_flights) delay_minutes)
      Binary64.COST_PER_MINUTE_AIRLINE_OPS in
  Binary64.same_value (Binary64.estimated_passenger_cost r)
    (Binary64.py_round2 pax_cost) /\
  Binary64.same_value (Binary64.estimated_airline_cost r)
    (Binary64.py_round2 airline_cost) /\
  Binary64.same_value (Binary64.total_economic_impact r)
    (Binary64.py_round2 (PrimFloat.add pax_cost airline_cost)).
Proof.
  intros H total_flights pax_cost airline_cost.
  destruct (reported_costs_from_trigger con airport date delay_minutes
              min_turnaround_minutes r H) as (_ & Hp & Ha & Ht).
  auto.
Qed.

Lemma total_is_rounded_sum_witness :
  let d := Binary64.decimal 1575 100 in
  let r := one_result_15_75 in
  let pax_cost :=
    PrimFloat.mul (PrimFloat.mul (Binary64.of_int 139) d)
      Binary64.COST_PER_MINUTE_PASSENGER in
  let airline_cost :=
    PrimFloat.mul (PrimFloat.mul (Binary64.of_int (1 + 0)) d)
      Binary64.COST_PER_MINUTE_AIRLINE_OPS in
  Binary64.calculate_cascade_impact snapshot_one ORD day d 45 = Some r /\
  Binary64.same_value (Binary64.estimated_passenger_cost r)
    (Binary64.py_round2 pax_cost) /\
  Binary64.same_value (Binary64.estimated_airline_cost r)
    (Binary64.py_round2 airline_cost) /\
  Binary64.same_value (Binary64.total_economic_impact r)
    (Binary64.py_round2 (PrimFloat.add pax_cost airline_cost)).
Proof.
  intros d r.
  assert (H : Binary64.calculate_cascade_impact snapshot_one ORD day d 45 =
              Some r) by (vm_compute; reflexivity).
  split; [exact H|].
  exact (total_is_rounded_sum snapshot_one ORD day d 45 r H).
Defined.

(** ** A larger trigger delay never lowers the total *)


Lemma window_hi_mono (d1 d2 : Q) (m : Z) :
  (0 <= d1)%Q -> (d1 <= d2)%Q -> window_hi d1 m <= window_hi d2 m.
Proof.
  intros H0 H. unfold window_hi. pose proof (py_int_mono d1 d2 H0 H). lia.
Qed.

Lemma total_flights_mono_in_delay (con : Connection) (airport date : string)
    (min_turnaround_minutes : Z) (d1 d2 : Q) :
  (0 <= d1)%Q -> (d1 <= d2)%Q ->
  let r1 := calculate_cascade_impact con airport date d1 min_turnaround_minutes in
  let r2 := calculate_cascade_impact con airport date d2 min_turnaround_minutes in
  directly_affected_flights r1 + cascade_affected_flights r1 <=
  directly_affected_flights r2 + cascade_affected_flights r2.
Proof.
  intros H0 H r1 r2. unfold r1, r2. rewrite !cascade_count_is_match_count.
  simpl. apply Z.add_le_mono_l, Nat2Z.inj_le. unfold cascade_matches.
  apply matches_widen. now apply window_hi_mono.
Qed.



(** ** The destination list *)

(** C6, as stated, fails: two destinations with one match each are both
    listed, so the counts along the list do not strictly descend, in
    whichever order the two are returned. *)
Lemma destinations_not_strictly_descending :
  let r := calculate_cascade_impact snapshot_tie ORD day 90 45 in
  let count := dest_match_count snapshot_tie ORD day 90 45 in
  count (Some "DFW"%string) = 1 /\ count (Some "LAX"%string) = 1 /\
  Permutation (affected_destinations r)
    [Some "DFW"%string; Some "LAX"%string] /\
  forall l, Permutation (affected_destinations r) l ->
            ~ Sorted (fun k1 k2 => count k2 < count k1) l.
Proof.
  intros r count.
  assert (E : affected_destinations r = [Some "DFW"%string; Some "LAX"%string])
    by (vm_compute; reflexivity).
  assert (E1 : count (Some "DFW"%string) = 1) by (vm_compute; reflexivity).
  assert (E2 : count (Some "LAX"%string) = 1) by (vm_compute; reflexivity).
  split; [exact E1|]. split; [exact E2|]. split; [now rewrite E|].
  intros l Hl. rewrite E in Hl.
  apply Permutation_length_2_inv in Hl. destruct Hl as [->| ->]; intros H;
    inversion H as [|? ? _ Hhd]; inversion Hhd as [|? ? Hlt]; lia.
Qed.

Lemma strongly_sorted_map {A B : Type} (R : A -> A -> Prop)
    (R' : B -> B -> Prop) (P : A -> Prop) (f : A -> B) (l : list A) :
  (forall x y, P x -> P y -> R x y -> R' (f x) (f y)) ->
  Forall P l -> StronglySorted R l -> StronglySorted R' (map f l).
Proof.
  intros HR HP Hs. induction Hs as [|x l Hs IH Hx]; simpl; [constructor|].
  inversion HP as [|? ? Px Pl]; subst. constructor; [now apply IH|].
  apply Forall_forall. intros b Hb. apply in_map_iff in Hb.
  destruct Hb as (y & <- & Hy).
  rewrite Forall_forall in Hx, Pl. apply HR; auto.
Qed.

Lemma in_firstn {A : Type} (n : nat) (l : list A) (y : A) :
  In y (firstn n l) -> In y l.
Proof.
  intros H. rewrite <- (firstn_skipn n l). apply in_or_app. now left.
Qed.

Lemma strongly_sorted_firstn {A : Type} (R : A -> A -> Prop) (n : nat)
    (l : list A) :
  StronglySorted R l -> StronglySorted R (firstn n l).
Proof.
  intros Hs. revert n. induction Hs as [|x l Hs IH Hx]; intros [|n]; simpl;
    try constructor.
  - apply IH.
  - apply Forall_forall. intros y Hy. rewrite Forall_forall in Hx.
    apply Hx. exact (in_firstn n l y Hy).
Qed.

(** Every row of the frame carries the match count of its destination. *)
Lemma frame_counts (con : Connection) (airport date : string)
    (delay_minutes : Q) (min_turnaround_minutes : Z) :
  Forall
    (fun row =>
       affected_flights row =
       dest_match_count con airport date delay_minutes min_turnaround_minutes
         (outbound_dest row))
    (cascade_df con airport date delay_minutes min_turnaround_minutes).
Proof.
  unfold cascade_df.
  eapply Permutation_Forall; [apply Permutation_sym, order_by_perm|].
  unfold group_by_dest. apply Forall_forall. intros row Hrow.
  apply in_map_iff in Hrow. destruct Hrow as (k & <- & _). reflexivity.
Qed.

(** C6, amended.  The destination list has at most 20 entries, and along the
    list the match count of the destinations never increases (it may stay
    equal from one entry to the next). *)
Theorem destinations_bounded_and_ordered (con : Connection)
    (airport date : string) (delay_minutes : Q) (min_turnaround_minutes : Z) :
  let r := calculate_cascade_impact con airport date delay_minutes
             min_turnaround_minutes in
  let count :=
    dest_match_count con airport date delay_minutes min_turnaround_minutes in
  (List.length (affected_destinations r) <= 20)%nat /\
  StronglySorted (fun k1 k2 => count k2 <= count k1) (affected_destinations r).
Proof.
  intros r count.
  unfold r, calculate_cascade_impact. cbn [affected_destinations]. split.
  - apply firstn_le_length.
  - rewrite affected_dests_of_map. apply strongly_sorted_firstn.
    apply strongly_sorted_map with (R := count_ge)
      (P := fun row => affected_flights row = count (outbound_dest row)).
    + intros x y Hx Hy Hxy. unfold count_ge in Hxy. lia.
    + apply frame_counts.
    + apply order_by_strongly_sorted.
Qed.

(** ** Cross-check of the cost model in binary64 *)

Module Binary64Checks.
Import Binary64.

(** Three affected flights: 417 passengers in binary64 too. *)
Example total_pax_three :
  total_pax 3 = Some 417 /\ total_pax_of 3 = 417.
Proof. vm_compute. split; reflexivity. Qed.

(** One affected flight, trigger delay 30.1: the reported costs are the
    doubles written 3096.09, 2061.25 and 5157.33, and the total is not the
    floating point sum of the two parts. *)
Example costs_at_30_1 :
  reported_costs 1 (decimal 301 10) =
    Some (decimal 309609 100, decimal 206125 100, decimal 515733 100) /\
  PrimFloat.eqb
    (PrimFloat.add (decimal 309609 100) (decimal 206125 100))
    (decimal 515733 100) = false.
Proof. vm_compute. split; reflexivity. Qed.

(** In binary64 the total can differ from the sum of the parts even at a
    whole number of minutes: with one affected flight and a trigger delay of
    15, the parts are 1542.9 and 1027.2, whose floating point sum is not the
    double written 2570.1 that is reported as the total. *)
Example costs_at_15 :
  reported_costs 1 (of_int 15) =
    Some (decimal 15429 10, decimal 10272 10, decimal 25701 10) /\
  PrimFloat.eqb
    (PrimFloat.add (decimal 15429 10) (decimal 10272 10))
    (decimal 25701 10) = false.
Proof. vm_compute. split; reflexivity. Qed.

End Binary64Checks.

(** Where the two embeddings of the cost model part: one affected flight
    and a trigger delay of 15.75.  The exact passenger cost 1620.045 is a
    tie and rounds to the even 1620.04; the product of the doubles lies above
    the tie, and the program reports 1620.05 (and 2698.61 for the total,
    where exact arithmetic gives 2698.60). *)
Example costs_at_15_75 :
  Binary64.calculate_cascade_impact snapshot_one ORD day
    (Binary64.decimal 1575 100) 45 = Some one_result_15_75 /\
  Binary64.reported_costs 1 (Binary64.decimal 1575 100) =
    Some (Binary64.decimal 162005 100, Binary64.decimal 107856 100,
          Binary64.decimal 269861 100) /\
  let r := calculate_cascade_impact snapshot_one ORD day (1575 # 100) 45 in
  (estimated_passenger_cost r == 162004 # 100)%Q /\
  (total_economic_impact r == 269860 # 100)%Q.
Proof. vm_compute. repeat split; reflexivity. Qed.

(** ** The time conversion *)

Lemma hhmm_split (h m : Z) :
  0 <= h -> 0 <= m < 100 -> (100 * h + m) / 100 = h /\ Z.rem (100 * h + m) 100 = m.
Proof.
  intros Hh Hm. split.
  - symmetry. apply (Z.div_unique _ 100 h m); lia.
  - rewrite Z.rem_mod_nonneg by lia. symmetry.
    apply (Z.mod_unique _ 100 h m); lia.
Qed.

Lemma hhmm_to_minutes_hm (h m : Z) :
  0 <= h -> 0 <= m < 100 ->
  hhmm_to_minutes (Some (100 * h + m)) = Some (60 * h + m).
Proof.
  intros Hh Hm. unfold hhmm_to_minutes.
  destruct (hhmm_split h m Hh Hm) as [-> ->]. f_equal. lia.
Qed.

(** X1.  For an hour [h >= 0] and a minutes part [0 <= m < 100], the HHMM value
    [100 * h + m] converts to [60 * h + m] minutes since midnight: 1430 gives
    870. *)
Theorem hhmm_to_minutes_clock (h m : Z) :
  0 <= h -> 0 <= m < 100 ->
  hhmm_to_minutes (Some (100 * h + m)) = Some (60 * h + m).
Proof.
  intros Hh Hm. pose proof (hhmm_split h m Hh Hm) as [Hq Hr].
  unfold hhmm_to_minutes. rewrite Hq, Hr. f_equal. lia.
Qed.

Lemma hhmm_to_minutes_clock_witness :
  0 <= 14 /\ 0 <= 30 < 100 /\
  hhmm_to_minutes (Some (100 * 14 + 30)) = Some (60 * 14 + 30).
Proof.
  assert (Hh : 0 <= 14) by lia. assert (Hm : 0 <= 30 < 100) by lia.
  split; [exact Hh|]. split; [exact Hm|].
  exact (hhmm_to_minutes_clock 14 30 Hh Hm).
Defined.

Lemma clock_value_split (v : Z) :
  clock_value v -> exists h m, v = 100 * h + m /\ 0 <= h /\ 0 <= m < 60.
Proof.
  intros [H0 Hm]. exists (v / 100), (Z.rem v 100).
  rewrite Z.rem_mod_nonneg in * by lia.
  pose proof (Z.div_mod v 100 ltac:(lia)).
  pose proof (Z.mod_pos_bound v 100 ltac:(lia)).
  pose proof (Z.div_pos v 100 H0 ltac:(lia)). lia.
Qed.

(** X2.  On clock values (not negative, minutes part below 60) the conversion
    keeps the order: one scheduled time is before another exactly when its
    minutes since midnight are fewer. *)
Theorem hhmm_to_minutes_order (v w x y : Z) :
  clock_value v -> clock_value w ->
  hhmm_to_minutes (Some v) = Some x -> hhmm_to_minutes (Some w) = Some y ->
  (v < w <-> x < y).
Proof.
  intros Hv Hw Ex Ey.
  destruct (clock_value_split v Hv) as (h & m & -> & Hh & Hm).
  destruct (clock_value_split w Hw) as (h' & m' & -> & Hh' & Hm').
  rewrite (hhmm_to_minutes_hm h m) in Ex by lia.
  rewrite (hhmm_to_minutes_hm h' m') in Ey by lia.
  assert (Hx : x = 60 * h + m) by congruence.
  assert (Hy : y = 60 * h' + m') by congruence. lia.
Qed.

Lemma hhmm_to_minutes_order_witness :
  clock_value 1430 /\ clock_value 1500 /\
  hhmm_to_minutes (Some 1430) = Some 870 /\
  hhmm_to_minutes (Some 1500) = Some 900 /\
  (1430 < 1500 <-> 870 < 900).
Proof.
  assert (Hv : clock_value 1430) by (split; [lia | reflexivity]).
  assert (Hw : clock_value 1500) by (split; [lia | reflexivity]).
  assert (Ex : hhmm_to_minutes (Some 1430) = Some 870) by reflexivity.
  assert (Ey : hhmm_to_minutes (Some 1500) = Some 900) by reflexivity.
  repeat (split; [assumption|]).
  exact (hhmm_to_minutes_order 1430 1500 870 900 Hv Hw Ex Ey).
Defined.

(** X3.  A clock value up to 2359 converts to a minute of the day, between 0
    and 1439. *)
Theorem hhmm_to_minutes_range (v x : Z) :
  clock_value v -> v <= 2359 -> hhmm_to_minutes (Some v) = Some x ->
  0 <= x <= 1439.
Proof.
  intros Hv Hle Ex.
  destruct (clock_value_split v Hv) as (h & m & -> & Hh & Hm).
  rewrite (hhmm_to_minutes_hm h m) in Ex by lia.
  assert (Hx : x = 60 * h + m) by congruence. lia.
Qed.

Lemma hhmm_to_minutes_range_witness :
  clock_value 2359 /\ 2359 <= 2359 /\
  hhmm_to_minutes (Some 2359) = Some 1439 /\ 0 <= 1439 <= 1439.
Proof.
  assert (Hv : clock_value 2359) by (split; [lia | reflexivity]).
  assert (Hle : 2359 <= 2359) by lia.
  assert (Ex : hhmm_to_minutes (Some 2359) = Some 1439) by reflexivity.
  repeat (split; [assumption|]).
  exact (hhmm_to_minutes_range 2359 1439 Hv Hle Ex).
Defined.

(** ** Where matches come from *)

Lemma sql_eq_text_true (x y : option string) :
  sql_eq_text x y = true <-> exists s, x = Some s /\ y = Some s.
Proof.
  destruct x as [s|], y as [t|]; simpl.
  - rewrite String.eqb_eq. split.
    + intros ->. now exists t.
    + intros (u & [= ->] & [= ->]). reflexivity.
  - split; [discriminate|]. intros (u & _ & E). discriminate.
  - split; [discriminate|]. intros (u & E & _). discriminate.
  - split; [discriminate|]. intros (u & E & _). discriminate.
Qed.

Lemma in_outbound_flights (con : Connection) (airport date : string)
    (o : OutboundFlight) :
  In o (outbound_flights con airport date) <->
  exists r,
    In r con /\ origin r = Some airport /\ flightdate r = Some date /\
    sql_eq_zero (cancelled r) = true /\ sql_is_not_null (crsdeptime r) = true /\
    o = {| o_airline := iata_code_reporting_airline r;
           o_flight_num := flight_number_reporting_airline r;
           o_outbound_dest := dest r;
           o_dep_minutes := hhmm_to_minutes (crsdeptime r);
           o_depdelayminutes := depdelayminutes r |}.
Proof.
  unfold outbound_flights. rewrite in_map_iff. split.
  - intros (r & <- & Hr). apply filter_In in Hr. destruct Hr as [Hr Hc].
    rewrite !andb_true_iff, !sql_eq_param_true in Hc.
    exists r. tauto.
  - intros (r & Hr & Ho & Hf & Hc & Hn & ->). exists r. split; [reflexivity|].
    apply filter_In. split; [assumption|].
    rewrite !andb_true_iff, !sql_eq_param_true. tauto.
Qed.

Lemma in_arrivals_where (keep : Q -> bool) (con : Connection)
    (airport date : string) (a : DelayedArrival) :
  In a (arrivals_where keep con airport date) <->
  exists r d,
    In r con /\ arrdelayminutes r = Some d /\ dest r = Some airport /\
    flightdate r = Some date /\ keep d = true /\
    a = {| a_airline := iata_code_reporting_airline r;
           a_arr_minutes := hhmm_to_minutes (crsarrtime r);
           a_arr_delay := d;
           a_arrived_from := origin r |}.
Proof.
  unfold arrivals_where. rewrite in_flat_map. split.
  - intros (r & Hr & Ha). destruct (arrdelayminutes r) as [d|] eqn:Ed; [|easy].
    destruct (sql_eq_param (dest r) airport && sql_eq_param (flightdate r) date
              && keep d) eqn:Ec; [|easy].
    destruct Ha as [<-|[]].
    rewrite !andb_true_iff, !sql_eq_param_true in Ec.
    exists r, d. tauto.
  - intros (r & d & Hr & Ed & Hd & Hf & Hk & ->). exists r. split; [assumption|].
    rewrite Ed.
    assert (sql_eq_param (dest r) airport && sql_eq_param (flightdate r) date
            && keep d = true) as ->
      by (rewrite !andb_true_iff, !sql_eq_param_true; tauto).
    now left.
Qed.

(** X4.  Every cascade match pairs a stored departure from the airport on the
    date that is not cancelled with a stored arrival into the airport on that
    date; the two rows carry the same, non-null airline code, and the match
    repeats destination, flight number and departure delay of the first and
    origin and arrival delay of the second. *)
Theorem matches_pair_live_flights (con : Connection) (airport date : string)
    (delay_minutes : Q) (min_turnaround_minutes : Z) (mt : CascadeMatch) :
  In mt (cascade_matches con airport date delay_minutes min_turnaround_minutes) ->
  exists ro ra airline,
    In ro con /\ In ra con /\
    origin ro = Some airport /\ flightdate ro = Some date /\
    (exists c, cancelled ro = Some c /\ (c == 0)%Q) /\
    dest ra = Some airport /\ flightdate ra = Some date /\
    iata_code_reporting_airline ro = Some airline /\
    iata_code_reporting_airline ra = Some airline /\
    arrdelayminutes ra = Some (m_inbound_delay mt) /\
    m_outbound_dest mt = dest ro /\
    m_flight_num mt = flight_number_reporting_airline ro /\
    m_depdelayminutes mt = depdelayminutes ro /\
    m_arrived_from mt = origin ra /\
    m_turnaround_gap mt =
      sql_sub (hhmm_to_minutes (crsdeptime ro)) (hhmm_to_minutes (crsarrtime ra)).
Proof.
  intros Hin. unfold cascade_matches in Hin. apply in_matches_of in Hin.
  destruct Hin as (o & a & -> & Ho & Ha & Hc).
  apply in_outbound_flights in Ho.
  destruct Ho as (ro & Hro & Horig & Hdate & Hcanc & _ & ->).
  apply in_arrivals_where in Ha.
  destruct Ha as (ra & d & Hra & Hd & Hdest & Hdate' & _ & ->).
  apply cascade_on_true in Hc.
  destruct Hc as (_ & _ & _ & _ & Hair & _). simpl in Hair.
  apply sql_eq_text_true in Hair. destruct Hair as (airline & E1 & E2).
  exists ro, ra, airline. simpl. repeat split; try assumption.
  unfold sql_eq_zero in Hcanc. destruct (cancelled ro) as [c|]; [|discriminate].
  exists c. split; [reflexivity|]. now apply Qeq_bool_iff.
Qed.

Lemma matches_pair_live_flights_witness :
  In sample_match (cascade_matches snapshot_hub ORD day 90 45) /\
  exists ro ra airline,
    In ro snapshot_hub /\ In ra snapshot_hub /\
    origin ro = Some ORD /\ flightdate ro = Some day /\
    (exists c, cancelled ro = Some c /\ (c == 0)%Q) /\
    dest ra = Some ORD /\ flightdate ra = Some day /\
    iata_code_reporting_airline ro = Some airline /\
    iata_code_reporting_airline ra = Some airline /\
    arrdelayminutes ra = Some (m_inbound_delay sample_match) /\
    m_outbound_dest sample_match = dest ro /\
    m_flight_num sample_match = flight_number_reporting_airline ro /\
    m_depdelayminutes sample_match = depdelayminutes ro /\
    m_arrived_from sample_match = origin ra /\
    m_turnaround_gap sample_match =
      sql_sub (hhmm_to_minutes (crsdeptime ro)) (hhmm_to_minutes (crsarrtime ra)).
Proof.
  assert (Hin : In sample_match (cascade_matches snapshot_hub ORD day 90 45))
    by (vm_compute; left; reflexivity).
  split; [exact Hin|].
  exact (matches_pair_live_flights snapshot_hub ORD day 90 45 sample_match Hin).
Defined.

(** ** A window that is too narrow *)

Lemma cascade_on_narrow (hi : Z) (o : OutboundFlight) (a : DelayedArrival) :
  hi < 20 -> cascade_on hi o a = false.
Proof.
  intros H. destruct (cascade_on hi o a) eqn:E; [|reflexivity].
  apply cascade_on_true in E. destruct E as (dep & arr & _ & _ & _ & _ & ? & ? & _).
  lia.
Qed.

(** X5.  When [min_turnaround_minutes + int(delay_minutes)] is below 20, the
    window [BETWEEN 20 AND ...] is empty: no cascade is counted and no
    destination is listed. *)
Theorem narrow_window_no_cascade (con : Connection) (airport date : string)
    (delay_minutes : Q) (min_turnaround_minutes : Z) :
  min_turnaround_minutes + py_int delay_minutes < 20 ->
  let r := calculate_cascade_impact con airport date delay_minutes
             min_turnaround_minutes in
  cascade_affected_flights r = 0 /\ affected_destinations r = [].
Proof.
  intros H r.
  assert (Hm : cascade_matches con airport date delay_minutes
                 min_turnaround_minutes = []).
  { unfold cascade_matches, matches_of, cascade_pairs.
    rewrite flat_map_nil_when; [reflexivity|]. intros o _.
    rewrite filter_nil_when; [reflexivity|]. intros a _.
    now apply cascade_on_narrow. }
  unfold r, calculate_cascade_impact, cascade_df. rewrite Hm. simpl.
  split; reflexivity.
Qed.

Lemma narrow_window_no_cascade_witness :
  10 + py_int 5 < 20 /\
  cascade_affected_flights (calculate_cascade_impact snapshot_hub ORD day 5 10) = 0 /\
  affected_destinations (calculate_cascade_impact snapshot_hub ORD day 5 10) = [].
Proof.
  assert (H : 10 + py_int 5 < 20) by (vm_compute; reflexivity).
  split; [exact H|].
  exact (narrow_window_no_cascade snapshot_hub ORD day 5 10 H).
Defined.

(** ** Bounds on the cascade count *)

Lemma delayed_arrivals_le_direct (con : Connection) (airport date : string) :
  (List.length (delayed_arrivals con airport date) <=
   List.length (filter (is_direct airport date) con))%nat.
Proof.
  unfold delayed_arrivals, arrivals_where.
  induction con as [|r con IH]; simpl; [lia|].
  rewrite length_app. unfold is_direct at 1.
  destruct (arrdelayminutes r) as [d|]; simpl.
  - destruct (sql_eq_param (dest r) airport && sql_eq_param (flightdate r) date);
      simpl; [|lia].
    destruct (Qle_bool 15 d) eqn:E; simpl; [|destruct (Qlt_bool 0 d); simpl; lia].
    apply Qle_bool_iff in E.
    assert (Qlt_bool 0 d = true) as -> by (apply Qlt_bool_iff; lra).
    simpl. lia.
  - rewrite andb_false_r. simpl. lia.
Qed.

Lemma cascade_pairs_length (hi : Z) (os : list OutboundFlight)
    (arrs : list DelayedArrival) :
  (List.length (cascade_pairs hi os arrs) <= List.length os * List.length arrs)%nat.
Proof.
  unfold cascade_pairs. induction os as [|o os IH]; simpl; [lia|].
  rewrite length_app, length_map.
  pose proof (filter_length_le (cascade_on hi o) (fun _ => true) arrs
                (fun _ _ => eq_refl)) as H.
  rewrite (forallb_filter_id (fun _ => true) arrs) in H
    by (apply forallb_forall; reflexivity).
  lia.
Qed.

(** X6.  The cascade count is at most the number of outbound flights times the
    number of directly affected flights; in particular a cascade needs a
    directly affected flight. *)
Theorem cascade_bounded_by_exposure (con : Connection) (airport date : string)
    (delay_minutes : Q) (min_turnaround_minutes : Z) :
  let r := calculate_cascade_impact con airport date delay_minutes
             min_turnaround_minutes in
  cascade_affected_flights r <=
    Z.of_nat (List.length (outbound_flights con airport date))
    * directly_affected_flights r /\
  (0 < cascade_affected_flights r -> 0 < directly_affected_flights r).
Proof.
  intros r.
  assert (H : cascade_affected_flights r <=
              Z.of_nat (List.length (outbound_flights con airport date))
              * directly_affected_flights r).
  { unfold r. rewrite cascade_count_is_match_count. simpl.
    unfold cascade_matches, matches_of, direct_count. rewrite length_map.
    pose proof (cascade_pairs_length
                  (window_hi delay_minutes min_turnaround_minutes)
                  (outbound_flights con airport date)
                  (delayed_arrivals con airport date)) as H1.
    pose proof (delayed_arrivals_le_direct con airport date) as H2.
    nia. }
  split; [exact H|]. intros Hpos.
  assert (0 <= directly_affected_flights r)
    by (unfold r; simpl; apply direct_count_nonneg).
  nia.
Qed.

(** ** More delay, more exposure *)

Lemma cascade_pairs_incl (hi hi' : Z) (os : list OutboundFlight)
    (arrs : list DelayedArrival) :
  hi <= hi' -> incl (matches_of hi os arrs) (matches_of hi' os arrs).
Proof.
  intros Hle mt Hin. apply in_matches_of in Hin. apply in_matches_of.
  destruct Hin as (o & a & E & Ho & Ha & Hc). exists o, a.
  repeat split; try assumption. now apply (cascade_on_widen hi hi').
Qed.

(** X7.  With the rest fixed, a larger (non-negative) trigger delay keeps every
    match and may add some: the cascade count and the passenger count do not
    decrease. *)
Theorem exposure_monotone_in_delay (con : Connection) (airport date : string)
    (min_turnaround_minutes : Z) (d1 d2 : Q) :
  (0 <= d1)%Q -> (d1 <= d2)%Q ->
  let r1 := calculate_cascade_impact con airport date d1 min_turnaround_minutes in
  let r2 := calculate_cascade_impact con airport date d2 min_turnaround_minutes in
  incl (cascade_matches con airport date d1 min_turnaround_minutes)
       (cascade_matches con airport date d2 min_turnaround_minutes) /\
  cascade_affected_flights r1 <= cascade_affected_flights r2 /\
  total_affected_passengers r1 <= total_affected_passengers r2.
Proof.
  intros H0 H r1 r2.
  pose proof (window_hi_mono d1 d2 min_turnaround_minutes H0 H) as Hw.
  split; [|split].
  - unfold cascade_matches. now apply cascade_pairs_incl.
  - unfold r1, r2. rewrite !cascade_count_is_match_count.
    apply Nat2Z.inj_le. unfold cascade_matches. now apply matches_widen.
  - pose proof (total_flights_nonneg con airport date d1 min_turnaround_minutes).
    pose proof (total_flights_mono_in_delay con airport date
                  min_turnaround_minutes d1 d2 H0 H).
    apply total_pax_of_mono; assumption.
Qed.

Lemma exposure_monotone_in_delay_witness :
  (0 <= 0)%Q /\ (0 <= 15)%Q /\
  incl (cascade_matches snapshot_hub ORD day 0 20)
       (cascade_matches snapshot_hub ORD day 15 20) /\
  cascade_affected_flights (calculate_cascade_impact snapshot_hub ORD day 0 20) <=
  cascade_affected_flights (calculate_cascade_impact snapshot_hub ORD day 15 20) /\
  total_affected_passengers (calculate_cascade_impact snapshot_hub ORD day 0 20) <=
  total_affected_passengers (calculate_cascade_impact snapshot_hub ORD day 15 20).
Proof.
  assert (H0 : (0 <= 0)%Q) by (unfold Qle; simpl; lia).
  assert (H : (0 <= 15)%Q) by (unfold Qle; simpl; lia).
  split; [exact H0|]. split; [exact H|].
  exact (exposure_monotone_in_delay snapshot_hub ORD day 20 0 15 H0 H).
Defined.

(** ** Costs are never negative *)




(** ** What the destination list holds *)

Lemma in_distinct (ks : list (option string)) (k : option string) :
  In k (distinct ks) <-> In k ks.
Proof.
  induction ks as [|k0 ks IH]; simpl; [tauto|].
  rewrite filter_In, IH, negb_true_iff. split.
  - intros [H|[H _]]; auto.
  - intros [H|H]; [now left|].
    destruct (key_eqb k0 k) eqn:E; [left; now apply key_eqb_eq | right; auto].
Qed.

Lemma NoDup_distinct (ks : list (option string)) : NoDup (distinct ks).
Proof.
  induction ks as [|k0 ks IH]; simpl; constructor.
  - rewrite filter_In, key_eqb_refl. intros [_ H]. discriminate.
  - now apply NoDup_filter.
Qed.

Lemma NoDup_firstn {A : Type} (n : nat) (l : list A) :
  NoDup l -> NoDup (firstn n l).
Proof.
  intros H. rewrite <- (firstn_skipn n l) in H.
  exact (NoDup_app_remove_r _ _ H).
Qed.

Lemma group_by_dest_keys (ms : list CascadeMatch) :
  map outbound_dest (group_by_dest ms) = distinct (map m_outbound_dest ms).
Proof.
  unfold group_by_dest. rewrite map_map. simpl. apply map_id.
Qed.

Lemma frame_dests_perm (con : Connection) (airport date : string)
    (delay_minutes : Q) (min_turnaround_minutes : Z) :
  Permutation
    (map outbound_dest
       (cascade_df con airport date delay_minutes min_turnaround_minutes))
    (distinct
       (map m_outbound_dest
          (cascade_matches con airport date delay_minutes
             min_turnaround_minutes))).
Proof.
  unfold cascade_df. rewrite <- group_by_dest_keys.
  apply Permutation_map, order_by_perm.
Qed.

Lemma frame_dests_sorted (con : Connection) (airport date : string)
    (delay_minutes : Q) (min_turnaround_minutes : Z) :
  StronglySorted
    (fun k1 k2 =>
       dest_match_count con airport date delay_minutes min_turnaround_minutes k2 <=
       dest_match_count con airport date delay_minutes min_turnaround_minutes k1)
    (map outbound_dest
       (cascade_df con airport date delay_minutes min_turnaround_minutes)).
Proof.
  apply strongly_sorted_map with (R := count_ge)
    (P := fun row =>
            affected_flights row =
            dest_match_count con airport date delay_minutes
              min_turnaround_minutes (outbound_dest row)).
  - intros x y Hx Hy Hxy. unfold count_ge in Hxy. lia.
  - apply frame_counts.
  - apply order_by_strongly_sorted.
Qed.

Lemma group_rows_nonempty (ms : list CascadeMatch) (mt : CascadeMatch) :
  In mt ms -> (1 <= List.length (group_rows (m_outbound_dest mt) ms))%nat.
Proof.
  intros H. assert (Hin : In mt (group_rows (m_outbound_dest mt) ms))
    by (apply filter_In; split; [assumption | apply key_eqb_refl]).
  destruct (group_rows (m_outbound_dest mt) ms); [destruct Hin | simpl; lia].
Qed.

Lemma listed_destinations_nodup (con : Connection) (airport date : string)
    (delay_minutes : Q) (min_turnaround_minutes : Z) :
  NoDup
    (affected_destinations
       (calculate_cascade_impact con airport date delay_minutes
          min_turnaround_minutes)).
Proof.
  unfold calculate_cascade_impact. cbn [affected_destinations].
  rewrite affected_dests_of_map. apply NoDup_firstn.
  apply (Permutation_NoDup
           (Permutation_sym
              (frame_dests_perm con airport date delay_minutes
                 min_turnaround_minutes))).
  apply NoDup_distinct.
Qed.

Lemma listed_destination_matched (con : Connection) (airport date : string)
    (delay_minutes : Q) (min_turnaround_minutes : Z) (k : option string) :
  In k (affected_destinations
          (calculate_cascade_impact con airport date delay_minutes
             min_turnaround_minutes)) ->
  exists mt,
    In mt (cascade_matches con airport date delay_minutes
             min_turnaround_minutes) /\
    m_outbound_dest mt = k.
Proof.
  unfold calculate_cascade_impact. cbn [affected_destinations].
  rewrite affected_dests_of_map. intros Hk. apply in_firstn in Hk.
  apply (Permutation_in _
           (frame_dests_perm con airport date delay_minutes
              min_turnaround_minutes)) in Hk.
  apply in_distinct, in_map_iff in Hk.
  destruct Hk as (mt & E & Hmt). now exists mt.
Qed.

(** X9.  No destination is listed twice; every listed destination is that of
    an accepted match; and when the matches go to at most 20 destinations,
    the destination of every match is listed. *)
Theorem destinations_distinct_and_matched (con : Connection)
    (airport date : string) (delay_minutes : Q) (min_turnaround_minutes : Z) :
  let r := calculate_cascade_impact con airport date delay_minutes
             min_turnaround_minutes in
  let ms := cascade_matches con airport date delay_minutes
              min_turnaround_minutes in
  NoDup (affected_destinations r) /\
  (forall k, In k (affected_destinations r) ->
             exists mt, In mt ms /\ m_outbound_dest mt = k) /\
  ((List.length (distinct (map m_outbound_dest ms)) <= 20)%nat ->
   forall mt, In mt ms -> In (m_outbound_dest mt) (affected_destinations r)).
Proof.
  intros r ms.
  pose proof (frame_dests_perm con airport date delay_minutes
                min_turnaround_minutes) as Hperm. fold ms in Hperm.
  unfold r, calculate_cascade_impact. cbn [affected_destinations].
  rewrite affected_dests_of_map.
  set (ds := map outbound_dest
               (cascade_df con airport date delay_minutes min_turnaround_minutes))
    in *.
  split; [|split].
  - apply NoDup_firstn.
    apply (Permutation_NoDup (Permutation_sym Hperm)), NoDup_distinct.
  - intros k Hk. apply in_firstn in Hk.
    apply (Permutation_in _ Hperm), in_distinct, in_map_iff in Hk.
    destruct Hk as (mt & E & Hmt). now exists mt.
  - intros Hlen mt Hmt.
    rewrite firstn_all2 by (rewrite (Permutation_length Hperm); exact Hlen).
    apply (Permutation_in _ (Permutation_sym Hperm)), in_distinct.
    now apply in_map.
Qed.

Lemma sorted_firstn_skipn {A : Type} (R : A -> A -> Prop) (n : nat) (l : list A) :
  StronglySorted R l ->
  forall x y, In x (firstn n l) -> In y (skipn n l) -> R x y.
Proof.
  intros Hs. revert n. induction Hs as [|a l Hs IH Ha]; intros [|n] x y Hx Hy;
    simpl in *; try contradiction.
  destruct Hx as [<-|Hx].
  - rewrite Forall_forall in Ha. apply Ha.
    rewrite <- (firstn_skipn n l). apply in_or_app. now right.
  - now apply (IH n).
Qed.

(** X10.  Cutting the list at 20 keeps the busiest: a destination of a match
    that is not listed has no more matches than any listed one. *)
Theorem listed_destinations_are_busiest (con : Connection)
    (airport date : string) (delay_minutes : Q) (min_turnaround_minutes : Z) :
  let r := calculate_cascade_impact con airport date delay_minutes
             min_turnaround_minutes in
  let count :=
    dest_match_count con airport date delay_minutes min_turnaround_minutes in
  forall k mt,
    In k (affected_destinations r) ->
    In mt (cascade_matches con airport date delay_minutes
             min_turnaround_minutes) ->
    ~ In (m_outbound_dest mt) (affected_destinations r) ->
    count (m_outbound_dest mt) <= count k.
Proof.
  intros r count k mt Hk Hmt Hout.
  pose proof (frame_dests_perm con airport date delay_minutes
                min_turnaround_minutes) as Hperm.
  pose proof (frame_dests_sorted con airport date delay_minutes
                min_turnaround_minutes) as Hs.
  unfold r, calculate_cascade_impact in Hk, Hout.
  cbn [affected_destinations] in Hk, Hout.
  rewrite affected_dests_of_map in Hk, Hout.
  set (ds := map outbound_dest
               (cascade_df con airport date delay_minutes min_turnaround_minutes))
    in *.
  assert (Hin : In (m_outbound_dest mt) ds).
  { apply (Permutation_in _ (Permutation_sym Hperm)), in_distinct.
    now apply in_map. }
  rewrite <- (firstn_skipn 20 ds) in Hin. apply in_app_or in Hin.
  destruct Hin as [Hin|Hin]; [contradiction|].
  exact (sorted_firstn_skipn _ 20 ds Hs k (m_outbound_dest mt) Hk Hin).
Qed.

Lemma listed_destinations_are_busiest_witness :
  let r := calculate_cascade_impact snapshot_wide ORD day 90 45 in
  let count := dest_match_count snapshot_wide ORD day 90 45 in
  In (Some "ATL"%string) (affected_destinations r) /\
  In wide_last_match (cascade_matches snapshot_wide ORD day 90 45) /\
  ~ In (m_outbound_dest wide_last_match) (affected_destinations r) /\
  count (m_outbound_dest wide_last_match) <= count (Some "ATL"%string).
Proof.
  intros r count.
  assert (Hk : In (Some "ATL"%string) (affected_destinations r))
    by (vm_compute; left; reflexivity).
  assert (Hmt : In wide_last_match (cascade_matches snapshot_wide ORD day 90 45))
    by (vm_compute; repeat (try (left; reflexivity); right)).
  assert (Hout : ~ In (m_outbound_dest wide_last_match) (affected_destinations r)).
  { vm_compute. intros H.
    repeat (destruct H as [H|H]; [discriminate H|]). exact H. }
  repeat (split; [assumption|]).
  exact (listed_destinations_are_busiest snapshot_wide ORD day 90 45
           (Some "ATL"%string) wide_last_match Hk Hmt Hout).
Defined.

(** ** Only the rows of the airport and date are read *)

Lemma filter_filter_sub {A : Type} (p q : A -> bool) (l : list A) :
  (forall x, p x = true -> q x = true) -> filter p (filter q l) = filter p l.
Proof.
  intros H. induction l as [|x l IH]; simpl; [reflexivity|].
  destruct (q x) eqn:Eq; simpl; rewrite IH.
  - reflexivity.
  - destruct (p x) eqn:Ep; [|reflexivity]. rewrite (H x Ep) in Eq. discriminate.
Qed.

Lemma flat_map_filter_sub {A B : Type} (f : A -> list B) (q : A -> bool)
    (l : list A) :
  (forall x, q x = false -> f x = []) -> flat_map f (filter q l) = flat_map f l.
Proof.
  intros H. induction l as [|x l IH]; simpl; [reflexivity|].
  destruct (q x) eqn:Eq; simpl; rewrite IH; [reflexivity|].
  now rewrite (H x Eq).
Qed.

Lemma direct_count_in_scope (con : Connection) (airport date : string) :
  direct_count (filter (in_scope airport date) con) airport date =
  direct_count con airport date.
Proof.
  unfold direct_count. rewrite filter_filter_sub; [reflexivity|].
  intros r. unfold is_direct, in_scope. intros H.
  rewrite !andb_true_iff in H. destruct H as [[-> ->] _]. reflexivity.
Qed.

Lemma outbound_flights_in_scope (con : Connection) (airport date : string) :
  outbound_flights (filter (in_scope airport date) con) airport date =
  outbound_flights con airport date.
Proof.
  unfold outbound_flights. rewrite filter_filter_sub; [reflexivity|].
  intros r. unfold in_scope. intros H.
  rewrite !andb_true_iff in H. destruct H as [[[-> ->] _] _].
  now rewrite orb_true_r.
Qed.

Lemma arrivals_where_in_scope (keep : Q -> bool) (con : Connection)
    (airport date : string) :
  arrivals_where keep (filter (in_scope airport date) con) airport date =
  arrivals_where keep con airport date.
Proof.
  unfold arrivals_where. apply flat_map_filter_sub.
  intros r. unfold in_scope. intros H.
  destruct (arrdelayminutes r) as [d|]; [|reflexivity].
  destruct (sql_eq_param (flightdate r) date); simpl in H.
  - apply orb_false_iff in H. destruct H as [-> _]. reflexivity.
  - now rewrite andb_false_r.
Qed.

(** X11.  Only the rows of the date that arrive at or leave the airport are
    read: dropping every other row from the store changes none of the counts
    and costs, and leaves the same matches, so that every destination keeps
    its match count. *)
Theorem result_reads_only_scope (con : Connection) (airport date : string)
    (delay_minutes : Q) (min_turnaround_minutes : Z) :
  let scoped := filter (in_scope airport date) con in
  let r := calculate_cascade_impact scoped airport date delay_minutes
             min_turnaround_minutes in
  let r' := calculate_cascade_impact con airport date delay_minutes
              min_turnaround_minutes in
  directly_affected_flights r = directly_affected_flights r' /\
  cascade_affected_flights r = cascade_affected_flights r' /\
  total_affected_passengers r = total_affected_passengers r' /\
  estimated_passenger_cost r = estimated_passenger_cost r' /\
  estimated_airline_cost r = estimated_airline_cost r' /\
  total_economic_impact r = total_economic_impact r' /\
  Permutation (cascade_matches scoped airport date delay_minutes
                 min_turnaround_minutes)
              (cascade_matches con airport date delay_minutes
                 min_turnaround_minutes) /\
  forall k,
    dest_match_count scoped airport date delay_minutes min_turnaround_minutes k =
    dest_match_count con airport date delay_minutes min_turnaround_minutes k.
Proof.
  intros scoped r r'.
  assert (Hm : cascade_matches scoped airport date delay_minutes
                 min_turnaround_minutes =
               cascade_matches con airport date delay_minutes
                 min_turnaround_minutes).
  { unfold scoped, cascade_matches, delayed_arrivals.
    now rewrite outbound_flights_in_scope, arrivals_where_in_scope. }
  assert (Hr : r = r').
  { unfold r, r', calculate_cascade_impact, cascade_df. rewrite Hm.
    unfold scoped. now rewrite direct_count_in_scope. }
  rewrite Hr. repeat split; try reflexivity.
  - now rewrite Hm.
  - intros k. unfold dest_match_count. now rewrite Hm.
Qed.

(** ** The order of the rows in the store does not matter *)

Lemma filter_perm {A : Type} (p : A -> bool) (l l' : list A) :
  Permutation l l' -> Permutation (filter p l) (filter p l').
Proof.
  induction 1 as [|x l l' _ IH|x y l|l l' l'' _ IH1 _ IH2]; simpl.
  - constructor.
  - destruct (p x); [now constructor | assumption].
  - destruct (p x), (p y); try apply Permutation_refl. apply perm_swap.
  - now apply perm_trans with (filter p l').
Qed.

Lemma cascade_pairs_perm (hi : Z) (os os' : list OutboundFlight)
    (arrs arrs' : list DelayedArrival) :
  Permutation os os' -> Permutation arrs arrs' ->
  Permutation (cascade_pairs hi os arrs) (cascade_pairs hi os' arrs').
Proof.
  intros Ho Ha. unfold cascade_pairs.
  apply perm_trans
    with (flat_map (fun o => map (pair o) (filter (cascade_on hi o) arrs')) os).
  - clear Ho. induction os as [|o os IH]; simpl; [constructor|].
    apply Permutation_app; [|exact IH].
    apply Permutation_map, filter_perm, Ha.
  - now apply Permutation_flat_map.
Qed.

(** X12.  Counts and costs do not depend on the order of the rows in the
    store, and the matches are the same up to their order. *)
Theorem counts_ignore_row_order (con con' : Connection) (airport date : string)
    (delay_minutes : Q) (min_turnaround_minutes : Z) :
  Permutation con con' ->
  let r := calculate_cascade_impact con airport date delay_minutes
             min_turnaround_minutes in
  let r' := calculate_cascade_impact con' airport date delay_minutes
              min_turnaround_minutes in
  directly_affected_flights r = directly_affected_flights r' /\
  cascade_affected_flights r = cascade_affected_flights r' /\
  total_affected_passengers r = total_affected_passengers r' /\
  estimated_passenger_cost r = estimated_passenger_cost r' /\
  estimated_airline_cost r = estimated_airline_cost r' /\
  total_economic_impact r = total_economic_impact r' /\
  Permutation (cascade_matches con airport date delay_minutes
                 min_turnaround_minutes)
              (cascade_matches con' airport date delay_minutes
                 min_turnaround_minutes).
Proof.
  intros Hp r r'.
  assert (Hd : direct_count con airport date = direct_count con' airport date).
  { unfold direct_count. f_equal. apply Permutation_length, filter_perm, Hp. }
  assert (Hm : Permutation
                 (cascade_matches con airport date delay_minutes
                    min_turnaround_minutes)
                 (cascade_matches con' airport date delay_minutes
                    min_turnaround_minutes)).
  { unfold cascade_matches, matches_of. apply Permutation_map.
    apply cascade_pairs_perm.
    - unfold outbound_flights. apply Permutation_map, filter_perm, Hp.
    - unfold delayed_arrivals, arrivals_where. now apply Permutation_flat_map. }
  assert (Hc : cascade_affected_flights r = cascade_affected_flights r').
  { unfold r, r'. rewrite !cascade_count_is_match_count. f_equal.
    now apply Permutation_length. }
  unfold r, r' in *. simpl in Hc. simpl. rewrite Hd, Hc.
  repeat split; try reflexivity. exact Hm.
Qed.

Lemma counts_ignore_row_order_witness :
  Permutation snapshot_hub (rev snapshot_hub) /\
  let r := calculate_cascade_impact snapshot_hub ORD day 90 45 in
  let r' := calculate_cascade_impact (rev snapshot_hub) ORD day 90 45 in
  directly_affected_flights r = directly_affected_flights r' /\
  cascade_affected_flights r = cascade_affected_flights r' /\
  total_affected_passengers r = total_affected_passengers r' /\
  estimated_passenger_cost r = estimated_passenger_cost r' /\
  estimated_airline_cost r = estimated_airline_cost r' /\
  total_economic_impact r = total_economic_impact r' /\
  Permutation (cascade_matches snapshot_hub ORD day 90 45)
              (cascade_matches (rev snapshot_hub) ORD day 90 45).
Proof.
  assert (H : Permutation snapshot_hub (rev snapshot_hub))
    by apply Permutation_rev.
  split; [exact H|].
  exact (counts_ignore_row_order snapshot_hub (rev snapshot_hub) ORD day 90 45 H).
Defined.

(** ** A positive cost needs an affected flight *)



(** ** The simulation tool *)

Lemma upper_ascii_idem (c : Ascii.ascii) : upper_ascii (upper_ascii c) = upper_ascii c.
Proof.
  destruct c as [[] [] [] [] [] [] [] []]; reflexivity.
Qed.

Lemma upper_idem (s : string) : upper (upper s) = upper s.
Proof.
  induction s as [|c s IH]; simpl; [reflexivity|].
  now rewrite upper_ascii_idem, IH.
Qed.

Lemma upper_ascii_not_lower (c : Ascii.ascii) :
  is_lower (upper_ascii c) = false.
Proof.
  destruct c as [[] [] [] [] [] [] [] []]; reflexivity.
Qed.

Lemma upper_ascii_same_letter (c : Ascii.ascii) :
  same_letter (upper_ascii c) c = true.
Proof.
  destruct c as [[] [] [] [] [] [] [] []]; reflexivity.
Qed.

Lemma nat_of_ascii_inj (c1 c2 : Ascii.ascii) :
  Ascii.nat_of_ascii c1 = Ascii.nat_of_ascii c2 -> c1 = c2.
Proof.
  intros H. rewrite <- (Ascii.ascii_nat_embedding c1),
    <- (Ascii.ascii_nat_embedding c2). now rewrite H.
Qed.

(** A capital is no lower-case letter: [upper_ascii] leaves it alone. *)
Lemma upper_ascii_of_capital (c l : Ascii.ascii) :
  is_lower l = true ->
  Ascii.nat_of_ascii c = (Ascii.nat_of_ascii l - 32)%nat ->
  upper_ascii l = c /\ upper_ascii c = c.
Proof.
  unfold is_lower, upper_ascii. intros Hl Hc. rewrite Hl. split.
  - rewrite <- Hc. apply Ascii.ascii_nat_embedding.
  - apply andb_true_iff in Hl. destruct Hl as [H1 H2].
    apply Nat.leb_le in H1, H2.
    destruct (97 <=? Ascii.nat_of_ascii c)%nat eqn:E; [|reflexivity].
    apply Nat.leb_le in E. lia.
Qed.

Lemma same_letter_upper (c1 c2 : Ascii.ascii) :
  same_letter c1 c2 = true -> upper_ascii c1 = upper_ascii c2.
Proof.
  unfold same_letter. intros H.
  apply orb_true_iff in H. destruct H as [H|H];
    [apply orb_true_iff in H; destruct H as [H|H]|].
  - apply Nat.eqb_eq, nat_of_ascii_inj in H. now subst.
  - apply andb_true_iff in H. destruct H as [Hl H]. apply Nat.eqb_eq in H.
    destruct (upper_ascii_of_capital c2 c1 Hl H) as [-> ->]. reflexivity.
  - apply andb_true_iff in H. destruct H as [Hl H]. apply Nat.eqb_eq in H.
    destruct (upper_ascii_of_capital c1 c2 Hl H) as [-> ->]. reflexivity.
Qed.

Lemma same_code_upper (s t : string) :
  same_code s t = true -> upper s = upper t.
Proof.
  revert t. induction s as [|c s IH]; intros [|d t]; simpl; try discriminate.
  - reflexivity.
  - intros H. apply andb_true_iff in H. destruct H as [Hc Hs].
    now rewrite (same_letter_upper c d Hc), (IH t Hs).
Qed.

Lemma upper_no_lower (s : string) : no_lower (upper s) = true.
Proof.
  induction s as [|c s IH]; simpl; [reflexivity|].
  now rewrite upper_ascii_not_lower, IH.
Qed.

Lemma upper_same_code (s : string) : same_code (upper s) s = true.
Proof.
  induction s as [|c s IH]; simpl; [reflexivity|].
  now rewrite upper_ascii_same_letter, IH.
Qed.

(** X14.  The tool upper-cases the airport code.  For a code in ASCII, where
    [upper] is [str.upper], the answer names the code in capitals: the code
    asked for, with no lower-case letter left.  Two codes that differ in the
    case of their letters at most get the same airport, date, counts and
    costs. *)
Theorem simulation_ignores_case (con : Connection) (latest_flight_date : string)
    (code1 code2 : string) (delay_minutes : Z) (date : string) :
  ascii_text code1 = true ->
  same_code code1 code2 = true ->
  let s1 := simulate_cascade_impact con latest_flight_date code1
              delay_minutes date in
  let s2 := simulate_cascade_impact con latest_flight_date code2
              delay_minutes date in
  no_lower (sim_airport s1) = true /\
  same_code (sim_airport s1) code1 = true /\
  sim_airport s1 = sim_airport s2 /\
  sim_analysis_date s1 = sim_analysis_date s2 /\
  sim_directly_affected_flights s1 = sim_directly_affected_flights s2 /\
  sim_cascade_affected_flights s1 = sim_cascade_affected_flights s2 /\
  sim_total_flights_affected s1 = sim_total_flights_affected s2 /\
  sim_total_passengers_impacted s1 = sim_total_passengers_impacted s2 /\
  sim_passenger_delay_cost_usd s1 = sim_passenger_delay_cost_usd s2 /\
  sim_airline_operations_cost_usd s1 = sim_airline_operations_cost_usd s2 /\
  sim_total_economic_impact_usd s1 = sim_total_economic_impact_usd s2.
Proof.
  intros _ H s1 s2. unfold s1, s2, simulate_cascade_impact.
  rewrite (same_code_upper code1 code2 H). cbn.
  rewrite <- (same_code_upper code1 code2 H).
  split; [apply upper_no_lower|]. split; [apply upper_same_code|].
  rewrite (same_code_upper code1 code2 H). repeat split; reflexivity.
Qed.

Lemma simulation_ignores_case_witness :
  ascii_text "ord" = true /\
  same_code "ord" "ORD" = true /\
  let s1 := simulate_cascade_impact snapshot_hub day "ord" 90 "" in
  let s2 := simulate_cascade_impact snapshot_hub day "ORD" 90 "" in
  no_lower (sim_airport s1) = true /\
  same_code (sim_airport s1) "ord" = true /\
  sim_airport s1 = sim_airport s2 /\
  sim_analysis_date s1 = sim_analysis_date s2 /\
  sim_directly_affected_flights s1 = sim_directly_affected_flights s2 /\
  sim_cascade_affected_flights s1 = sim_cascade_affected_flights s2 /\
  sim_total_flights_affected s1 = sim_total_flights_affected s2 /\
  sim_total_passengers_impacted s1 = sim_total_passengers_impacted s2 /\
  sim_passenger_delay_cost_usd s1 = sim_passenger_delay_cost_usd s2 /\
  sim_airline_operations_cost_usd s1 = sim_airline_operations_cost_usd s2 /\
  sim_total_economic_impact_usd s1 = sim_total_economic_impact_usd s2.
Proof.
  assert (Ha : ascii_text "ord" = true) by reflexivity.
  assert (H : same_code "ord" "ORD" = true) by reflexivity.
  split; [exact Ha|]. split; [exact H|].
  exact (simulation_ignores_case snapshot_hub day "ord" "ORD" 90 "" Ha H).
Defined.

(** The lower-case code is answered for ORD: two late arrivals, three
    matches. *)
Example simulation_of_lower_case_code :
  let s := simulate_cascade_impact snapshot_hub day "ord" 90 "" in
  sim_airport s = "ORD"%string /\
  sim_directly_affected_flights s = 2 /\
  sim_cascade_affected_flights s = 3.
Proof. vm_compute. repeat split; reflexivity. Qed.

(** X15.  The tool lists at most 15 destinations, none twice, each with at
    least one match, in order of descending match count. *)
Theorem simulation_destinations (con : Connection) (latest_flight_date : string)
    (airport_code : string) (delay_minutes : Z) (date : string) :
  let sim := simulate_cascade_impact con latest_flight_date airport_code
               delay_minutes date in
  let count :=
    dest_match_count con (sim_airport sim) (sim_analysis_date sim)
      (sim_trigger_delay_minutes sim) default_min_turnaround in
  (List.length (sim_cascade_destinations sim) <= 15)%nat /\
  NoDup (sim_cascade_destinations sim) /\
  StronglySorted (fun k1 k2 => count k2 <= count k1) (sim_cascade_destinations sim) /\
  (forall k, In k (sim_cascade_destinations sim) -> 1 <= count k).
Proof.
  intros sim count. unfold sim, simulate_cascade_impact.
  cbn [sim_cascade_destinations].
  set (date' := if String.eqb date "" then latest_flight_date else date).
  set (r := calculate_cascade_impact con (upper airport_code) date'
              (inject_Z delay_minutes) default_min_turnaround).
  assert (Hc : count =
               dest_match_count con (upper airport_code) date'
                 (inject_Z delay_minutes) default_min_turnaround) by reflexivity.
  pose proof (listed_destinations_nodup con (upper airport_code) date'
                (inject_Z delay_minutes) default_min_turnaround) as Hnd.
  pose proof (listed_destination_matched con (upper airport_code) date'
                (inject_Z delay_minutes) default_min_turnaround) as Hm.
  fold r in Hnd, Hm.
  split; [apply firstn_le_length|]. split; [now apply NoDup_firstn|]. split.
  - apply strongly_sorted_firstn. rewrite Hc.
    unfold r, calculate_cascade_impact. cbn [affected_destinations].
    rewrite affected_dests_of_map. apply strongly_sorted_firstn.
    apply frame_dests_sorted.
  - intros k Hk. apply in_firstn in Hk. destruct (Hm k Hk) as (mt & Hmt & <-).
    rewrite Hc. unfold dest_match_count.
    apply (Nat2Z.inj_le 1). now apply group_rows_nonempty.
Qed.

(** ** Cloud cover and ceiling *)

Lemma max_by_spec (f : string -> Z) (xs : list string) :
  forall x,
    In (max_by f x xs) (x :: xs) /\
    forall y, In y (x :: xs) -> f y <= f (max_by f x xs).
Proof.
  induction xs as [|z xs IH]; intros x; simpl.
  - split; [now left|]. intros y [<-|[]]. lia.
  - destruct (f x <? f z) eqn:E.
    + apply Z.ltb_lt in E. destruct (IH z) as [Hin Hmax]. split.
      * right. exact Hin.
      * intros y [<-|Hy]; [|now apply Hmax].
        pose proof (Hmax z (or_introl eq_refl)). lia.
    + apply Z.ltb_ge in E. destruct (IH x) as [Hin Hmax]. split.
      * destruct Hin as [Hin|Hin]; [now left | right; now right].
      * intros y [<-|[<-|Hy]].
        -- apply Hmax. now left.
        -- pose proof (Hmax x (or_introl eq_refl)). lia.
        -- apply Hmax. now right.
Qed.

Lemma in_covers_of (clouds : list CloudLayer) (s : string) :
  In s (covers_of clouds) <->
  exists c, In c clouds /\ cover c = Some s /\ s <> ""%string.
Proof.
  unfold covers_of. rewrite in_flat_map. split.
  - intros (c & Hc & Hs). exists c. destruct (cover c) as [t|]; [|destruct Hs].
    destruct (String.eqb t "") eqn:E; [destruct Hs|].
    destruct Hs as [<-|[]]. apply String.eqb_neq in E. auto.
  - intros (c & Hc & E & Hne). exists c. split; [assumption|]. rewrite E.
    apply String.eqb_neq in Hne. rewrite Hne. now left.
Qed.

Lemma cloud_cover_dominates (clouds : list CloudLayer) (c : CloudLayer)
    (s : string) :
  In c clouds -> cover c = Some s -> s <> ""%string ->
  cover_priority s <= cover_priority (_parse_cloud_cover clouds).
Proof.
  intros Hc Hs Hne.
  assert (Hin : In s (covers_of clouds)) by (apply in_covers_of; eauto).
  unfold _parse_cloud_cover. destruct clouds as [|c0 rest]; [destruct Hc|].
  destruct (covers_of (c0 :: rest)) as [|x xs]; [destruct Hin|].
  now apply (max_by_spec cover_priority xs x).
Qed.

(** X16.  The cloud cover returned has the highest priority among the covers
    of the layers (an unknown code counts 0), and is the cover of a layer
    unless no layer has one, when it is CLR. *)
Theorem cloud_cover_is_most_significant (clouds : list CloudLayer) :
  let res := _parse_cloud_cover clouds in
  (forall c s, In c clouds -> cover c = Some s -> s <> ""%string ->
               cover_priority s <= cover_priority res) /\
  ((exists c, In c clouds /\ cover c = Some res) \/
   (res = "CLR"%string /\ covers_of clouds = [])).
Proof.
  intros res. unfold res, _parse_cloud_cover.
  destruct clouds as [|c0 rest]; [split; [intros c s []|right; split; reflexivity]|].
  set (clouds := c0 :: rest).
  destruct (covers_of clouds) as [|x xs] eqn:E.
  - split; [|right; split; reflexivity].
    intros c s Hc Hs Hne.
    assert (Hin : In s (covers_of clouds)) by (apply in_covers_of; eauto).
    rewrite E in Hin. destruct Hin.
  - destruct (max_by_spec cover_priority xs x) as [Hin Hmax]. split.
    + intros c s Hc Hs Hne. apply Hmax. rewrite <- E. apply in_covers_of. eauto.
    + left. rewrite <- E in Hin. apply in_covers_of in Hin.
      destruct Hin as (c & Hc & Hs & _). eauto.
Qed.

Lemma parse_ceiling_some (clouds : list CloudLayer) (b : Q) :
  _parse_ceiling clouds = Some b ->
  exists before c after,
    clouds = before ++ c :: after /\
    is_ceiling_layer c = true /\ base c = Some b /\
    forall c', In c' before -> is_ceiling_layer c' = true -> base c' = None.
Proof.
  induction clouds as [|c0 rest IH]; simpl; [discriminate|].
  destruct (is_ceiling_layer c0) eqn:Ec.
  - destruct (base c0) as [b0|] eqn:Eb.
    + intros [= <-]. exists [], c0, rest. repeat split; auto. intros c' [].
    + intros H. destruct (IH H) as (before & c & after & -> & Hc & Hb & Hpre).
      exists (c0 :: before), c, after. repeat split; auto.
      intros c' [<-|Hc'] Hl; [assumption | now apply Hpre].
  - intros H. destruct (IH H) as (before & c & after & -> & Hc & Hb & Hpre).
    exists (c0 :: before), c, after. repeat split; auto.
    intros c' [<-|Hc'] Hl; [congruence | now apply Hpre].
Qed.

(** X17.  No ceiling is returned exactly when no BKN or OVC layer has a base. *)
Theorem ceiling_none_iff (clouds : list CloudLayer) :
  _parse_ceiling clouds = None <->
  forall c, In c clouds -> is_ceiling_layer c = true -> base c = None.
Proof.
  induction clouds as [|c0 rest IH]; simpl.
  - split; [intros _ c []|reflexivity].
  - destruct (is_ceiling_layer c0) eqn:Ec.
    + destruct (base c0) as [b0|] eqn:Eb.
      * split; [discriminate|]. intros H.
        specialize (H c0 (or_introl eq_refl) Ec). congruence.
      * rewrite IH. split.
        -- intros H c [<-|Hc] Hl; [assumption | now apply H].
        -- intros H c Hc. apply H. now right.
    + rewrite IH. split.
      * intros H c [<-|Hc] Hl; [congruence | now apply H].
      * intros H c Hc. apply H. now right.
Qed.

Lemma strongly_sorted_tail {A : Type} (R : A -> A -> Prop) (l1 l2 : list A) :
  StronglySorted R (l1 ++ l2) -> StronglySorted R l2.
Proof.
  induction l1 as [|x l1 IH]; simpl; [auto|].
  intros H. apply StronglySorted_inv in H. now apply IH.
Qed.

(** X18.  The ceiling returned is the base of a BKN or OVC layer of the
    list, namely of the first such layer that has a base; when the layers are
    listed by ascending base it is the lowest base of a BKN or OVC layer. *)
Theorem ceiling_is_lowest (clouds : list CloudLayer) (b : Q) :
  _parse_ceiling clouds = Some b ->
  (exists before c after,
     clouds = before ++ c :: after /\
     is_ceiling_layer c = true /\ base c = Some b /\
     forall c', In c' before -> is_ceiling_layer c' = true -> base c' = None) /\
  (bases_ascending clouds ->
   forall c b', In c clouds -> is_ceiling_layer c = true -> base c = Some b' ->
                (b <= b')%Q).
Proof.
  intros Hb.
  destruct (parse_ceiling_some clouds b Hb)
    as (before & c1 & after & E & Hc1 & Hb1 & Hpre).
  split; [exists before, c1, after; auto|].
  intros Hs c b' Hc Hl Hb'. subst clouds.
  apply in_app_or in Hc. destruct Hc as [Hc|[<-|Hc]].
  - rewrite (Hpre c Hc Hl) in Hb'. discriminate.
  - rewrite Hb1 in Hb'. injection Hb' as <-. apply Qle_refl.
  - unfold bases_ascending in Hs. apply strongly_sorted_tail in Hs.
    apply StronglySorted_inv in Hs. destruct Hs as [_ Hall].
    rewrite Forall_forall in Hall. exact (Hall c Hc b b' Hb1 Hb').
Qed.

Lemma ceiling_is_lowest_witness :
  _parse_ceiling sample_clouds = Some 4000%Q /\
  (exists before c after,
     sample_clouds = before ++ c :: after /\
     is_ceiling_layer c = true /\ base c = Some 4000%Q /\
     forall c', In c' before -> is_ceiling_layer c' = true -> base c' = None) /\
  (bases_ascending sample_clouds ->
   forall c b', In c sample_clouds -> is_ceiling_layer c = true ->
                base c = Some b' -> (4000 <= b')%Q).
Proof.
  assert (Hb : _parse_ceiling sample_clouds = Some 4000%Q) by reflexivity.
  split; [exact Hb|].
  exact (ceiling_is_lowest sample_clouds 4000%Q Hb).
Defined.

(** The hypothesis of ascending bases holds of the sample, and is needed:
    with an overcast layer listed before a lower broken one, the first base
    is returned, not the lowest. *)
Example ceiling_of_unordered_layers :
  bases_ascending sample_clouds /\
  _parse_ceiling
    [ {| cover := Some "OVC"%string; base := Some 9000%Q |};
      {| cover := Some "BKN"%string; base := Some 4000%Q |} ] = Some 9000%Q.
Proof.
  split; [|reflexivity].
  unfold bases_ascending, sample_clouds.
  repeat constructor; simpl; intros b1 b2 [= <-] [= <-]; discriminate.
Qed.

(** X19.  A record with a ceiling has cloud cover BKN or OVC. *)
Theorem ceiling_implies_broken_or_overcast (clouds : list CloudLayer) (b : Q) :
  _parse_ceiling clouds = Some b ->
  _parse_cloud_cover clouds = "BKN"%string \/
  _parse_cloud_cover clouds = "OVC"%string.
Proof.
  intros Hb.
  destruct (parse_ceiling_some clouds b Hb)
    as (before & c & after & E & Hc & _ & _).
  assert (Hin : In c clouds) by (rewrite E; apply in_or_app; right; now left).
  unfold is_ceiling_layer in Hc. destruct (cover c) as [s|] eqn:Es; [|discriminate].
  assert (Hs : 4 <= cover_priority s /\ s <> ""%string).
  { apply orb_true_iff in Hc. destruct Hc as [H|H]; apply String.eqb_eq in H;
      subst s; split; (reflexivity || discriminate || (vm_compute; discriminate)). }
  destruct Hs as [Hs Hne].
  pose proof (cloud_cover_dominates clouds c s Hin Es Hne) as Hmax.
  set (res := _parse_cloud_cover clouds) in *.
  assert (Hres : 4 <= cover_priority res) by lia.
  unfold cover_priority in Hres.
  destruct (String.eqb res "OVC") eqn:E1; [right; now apply String.eqb_eq|].
  destruct (String.eqb res "BKN") eqn:E2; [left; now apply String.eqb_eq|].
  destruct (String.eqb res "SCT"), (String.eqb res "FEW"), (String.eqb res "CLR");
    lia.
Qed.

Lemma ceiling_implies_broken_or_overcast_witness :
  _parse_ceiling sample_clouds = Some 4000%Q /\
  (_parse_cloud_cover sample_clouds = "BKN"%string \/
   _parse_cloud_cover sample_clouds = "OVC"%string).
Proof.
  assert (Hb : _parse_ceiling sample_clouds = Some 4000%Q) by reflexivity.
  split; [exact Hb|].
  exact (ceiling_implies_broken_or_overcast sample_clouds 4000%Q Hb).
Defined.

(** ** The agent's loop *)

Lemma should_remediate_late (state : PipelineState) :
  2 < iteration state ->
  String.eqb (should_remediate state) "diagnose" = false.
Proof.
  intros H. unfold should_remediate.
  destruct (issues_detected state); [reflexivity|].
  apply Z.ltb_lt in H. rewrite H. reflexivity.
Qed.

Lemma invoke_from_bounded (w : World) (k : nat) :
  forall state,
    2 <= iteration state + Z.of_nat k ->
    exists final trace,
      invoke_from (k * 4 + 3) w node_check_health state = Some (final, trace) /\
      (List.length (filter is_remediate trace) <= k)%nat /\
      (List.length (filter is_check trace) <= S k)%nat /\
      (List.length trace <= k * 4 + 3)%nat /\
      last trace node_check_health = node_generate_report.
Proof.
  induction k as [|k IH]; intros state Hk.
  - cbn [Nat.mul Nat.add invoke_from run_node next_node].
    rewrite should_remediate_late by (simpl; lia).
    cbn [invoke_from run_node next_node].
    eexists. eexists. split; [reflexivity|]. simpl.
    repeat split; (lia || reflexivity).
  - cbn [Nat.mul Nat.add invoke_from run_node next_node].
    destruct (String.eqb
                (should_remediate (detect_issues (check_pipeline_health w state)))
                "diagnose") eqn:E.
    + cbn [invoke_from run_node next_node].
      set (s4 := auto_remediate w
                   (diagnose_with_llm w
                      (detect_issues (check_pipeline_health w state)))).
      assert (Hs4 : 2 <= iteration s4 + Z.of_nat k) by (simpl; lia).
      destruct (IH s4 Hs4) as (final & trace & Hrun & Hr & Hc & Hl & Hlast).
      rewrite Hrun. exists final. eexists. split; [reflexivity|].
      simpl. repeat split; try lia; try assumption.
      destruct trace; [discriminate Hlast | exact Hlast].
    + cbn [invoke_from run_node next_node].
      eexists. eexists. split; [reflexivity|]. simpl.
      repeat split; (lia || reflexivity).
Qed.

(** X20.  Whatever the checks find and whatever the commands do, from a round
    counter that is not negative the agent reaches the report after at most
    two remediations, three health checks and eleven node runs. *)
Theorem agent_stops_after_two_remediations (w : World) (state : PipelineState) :
  0 <= iteration state ->
  exists final trace,
    invoke 11 w state = Some (final, trace) /\
    (List.length (filter is_remediate trace) <= 2)%nat /\
    (List.length (filter is_check trace) <= 3)%nat /\
    (List.length trace <= 11)%nat /\
    last trace node_check_health = node_generate_report.
Proof.
  intros H.
  destruct (invoke_from_bounded w 2 state ltac:(simpl; lia))
    as (final & trace & Hrun & Hr & Hc & Hl & Hlast).
  exists final, trace. repeat split; assumption.
Qed.

Lemma agent_stops_after_two_remediations_witness :
  0 <= iteration initial_state /\
  exists final trace,
    invoke 11 stubborn_world initial_state = Some (final, trace) /\
    (List.length (filter is_remediate trace) <= 2)%nat /\
    (List.length (filter is_check trace) <= 3)%nat /\
    (List.length trace <= 11)%nat /\
    last trace node_check_health = node_generate_report.
Proof.
  assert (H : 0 <= iteration initial_state) by (simpl; lia).
  split; [exact H|].
  exact (agent_stops_after_two_remediations stubborn_world initial_state H).
Defined.

Lemma detect_issues_none (state : PipelineState) :
  Forall (fun c => hc_status c = "healthy"%string) (health_checks state) ->
  issues_detected (detect_issues state) = [].
Proof.
  intros H. simpl. apply flat_map_nil_when. intros c Hc.
  rewrite Forall_forall in H. rewrite (H c Hc). reflexivity.
Qed.

(** X21.  When the first health check finds every table healthy, the agent
    runs health check, issue detection and report, and nothing else: no
    issue, no diagnosis, no action. *)
Theorem healthy_pipeline_is_left_alone (w : World) (state : PipelineState)
    (fuel : nat) :
  Forall (fun c => hc_status c = "healthy"%string)
         (observed w (iteration state)) ->
  let final :=
    generate_report w (detect_issues (check_pipeline_health w state)) in
  invoke (3 + fuel) w state =
    Some (final, [node_check_health; node_detect_issues; node_generate_report]) /\
  issues_detected final = [] /\
  actions_taken final = actions_taken state /\
  diagnosis final = diagnosis state.
Proof.
  intros H final. unfold invoke.
  cbn [Nat.add invoke_from run_node next_node].
  assert (Hi : issues_detected (detect_issues (check_pipeline_health w state)) = [])
    by (apply detect_issues_none; exact H).
  unfold should_remediate. rewrite Hi.
  cbn [String.eqb Ascii.eqb Bool.eqb invoke_from run_node next_node].
  repeat split. exact Hi.
Qed.

Lemma healthy_pipeline_is_left_alone_witness :
  Forall (fun c => hc_status c = "healthy"%string)
         (observed calm_world (iteration initial_state)) /\
  let final :=
    generate_report calm_world
      (detect_issues (check_pipeline_health calm_world initial_state)) in
  invoke (3 + 8) calm_world initial_state =
    Some (final, [node_check_health; node_detect_issues; node_generate_report]) /\
  issues_detected final = [] /\
  actions_taken final = actions_taken initial_state /\
  diagnosis final = diagnosis initial_state.
Proof.
  assert (H : Forall (fun c => hc_status c = "healthy"%string)
                     (observed calm_world (iteration initial_state)))
    by (repeat constructor).
  split; [exact H|].
  exact (healthy_pipeline_is_left_alone calm_world initial_state 8 H).
Defined.

(** ** What remediation does *)

Lemma remediation_for_at_most_one (w : World) (round : Z) (issue : Issue) :
  (List.length (remediation_for w round issue) <= 1)%nat.
Proof.
  unfold remediation_for.
  repeat match goal with
         | |- context [if ?c then _ else _] => destruct c
         end; simpl; lia.
Qed.

Lemma remediation_for_command (w : World) (round : Z) (issue : Issue)
    (a : Action) :
  In a (remediation_for w round issue) -> act_command a <> None ->
  i_severity issue = "stale"%string \/ i_severity issue = "critical"%string.
Proof.
  unfold remediation_for.
  destruct (String.eqb (i_severity issue) "stale") eqn:Es;
    [intros _ _; left; now apply String.eqb_eq|].
  destruct (String.eqb (i_severity issue) "critical") eqn:Ec;
    [intros _ _; right; now apply String.eqb_eq|].
  simpl. destruct (String.eqb (i_severity issue) "warning"); [|intros []].
  intros [<-|[]] H. now elim H.
Qed.

(** X22.  Remediation always records at least one action, at most one per
    issue, and a command is only run for an issue that is stale or critical. *)
Theorem remediation_always_reports (w : World) (state : PipelineState) :
  let actions := actions_taken (auto_remediate w state) in
  actions <> [] /\
  (List.length actions <= Nat.max 1 (List.length (issues_detected state)))%nat /\
  (forall a, In a actions -> act_command a <> None ->
     exists issue, In issue (issues_detected state) /\
       (i_severity issue = "stale"%string \/ i_severity issue = "critical"%string)).
Proof.
  intros actions. unfold actions, auto_remediate. cbn [actions_taken].
  set (round := iteration state).
  assert (Hlen : (List.length (flat_map (remediation_for w round) (issues_detected state))
                  <= List.length (issues_detected state))%nat).
  { induction (issues_detected state) as [|i l IH]; simpl; [lia|].
    rewrite length_app. pose proof (remediation_for_at_most_one w round i). lia. }
  destruct (flat_map (remediation_for w round) (issues_detected state))
    as [|a0 acts] eqn:E.
  - split; [discriminate|]. split; [apply Nat.le_max_l|].
    intros a [<-|[]] H. now elim H.
  - split; [discriminate|].
    split; [apply Nat.le_trans with (1 := Hlen), Nat.le_max_r|].
    intros a Ha Hc. rewrite <- E in Ha. apply in_flat_map in Ha.
    destruct Ha as (issue & Hi & Ha). exists issue. split; [assumption|].
    exact (remediation_for_command w round issue a Ha Hc).
Qed.

(** X23.  When every issue is critical and on a table whose name has neither
    [mart_] nor [stg_], nothing is run and the only action recorded is
    `No remediation needed'. *)
Theorem critical_raw_tables_get_no_action (w : World) (state : PipelineState) :
  Forall critical_raw (issues_detected state) ->
  actions_taken (auto_remediate w state) = [no_remediation].
Proof.
  intros H. simpl.
  rewrite flat_map_nil_when; [reflexivity|].
  intros issue Hi. rewrite Forall_forall in H.
  destruct (H issue Hi) as (Hs & Hm & Hg).
  unfold remediation_for. rewrite Hs, Hm, Hg. reflexivity.
Qed.

Lemma critical_raw_tables_get_no_action_witness :
  Forall critical_raw (issues_detected empty_flights_state) /\
  actions_taken (auto_remediate stubborn_world empty_flights_state) =
    [no_remediation].
Proof.
  assert (H : Forall critical_raw (issues_detected empty_flights_state)).
  { constructor; [|constructor]. repeat split; reflexivity. }
  split; [exact H|].
  exact (critical_raw_tables_get_no_action stubborn_world empty_flights_state H).
Defined.

(** ** The overall status of the report *)

Lemma filter_length_all {A : Type} (p : A -> bool) (l : list A) :
  List.length (filter p l) = List.length l <-> forall x, In x l -> p x = true.
Proof.
  induction l as [|x l IH]; simpl; [tauto|].
  pose proof (filter_length_le p (fun _ => true) l (fun _ _ => eq_refl)) as Hle.
  rewrite (forallb_filter_id (fun _ => true) l) in Hle
    by (apply forallb_forall; reflexivity).
  destruct (p x) eqn:E; simpl.
  - split.
    + intros H y [<-|Hy]; [assumption|]. apply IH; [lia | assumption].
    + intros H. f_equal. apply IH. intros y Hy. apply H. now right.
  - split; [lia|]. intros H. rewrite (H x (or_introl eq_refl)) in E.
    discriminate.
Qed.

(** X24.  The overall status of the report is HEALTHY exactly when every
    check is healthy (also when there is none), and CRITICAL exactly when
    some check is critical. *)
Theorem overall_status_meaning (checks : list HealthCheck) :
  (overall_of checks = HEALTHY <->
   forall c, In c checks -> hc_status c = "healthy"%string) /\
  (overall_of checks = CRITICAL <->
   exists c, In c checks /\ hc_status c = "critical"%string).
Proof.
  unfold overall_of, count_status.
  set (healthy := fun c => String.eqb (hc_status c) "healthy").
  set (critical := fun c => String.eqb (hc_status c) "critical").
  assert (Hh : (List.length (filter healthy checks) =? List.length checks)%nat = true
               <-> forall c, In c checks -> hc_status c = "healthy"%string).
  { rewrite Nat.eqb_eq, filter_length_all. unfold healthy.
    split; intros H c Hc; [apply String.eqb_eq | apply String.eqb_eq]; auto. }
  assert (Hc : (List.length (filter critical checks) =? 0)%nat = false
               <-> exists c, In c checks /\ hc_status c = "critical"%string).
  { rewrite Nat.eqb_neq. split.
    - intros H. destruct (filter critical checks) as [|c l] eqn:E; [now elim H|].
      assert (Hin : In c (filter critical checks)) by (rewrite E; now left).
      apply filter_In in Hin. exists c. split; [tauto|].
      apply String.eqb_eq. tauto.
    - intros (c & Hin & Hs) H.
      assert (Hf : In c (filter critical checks))
        by (apply filter_In; split; [assumption | now apply String.eqb_eq]).
      destruct (filter critical checks); [destruct Hf | discriminate]. }
  destruct (List.length (filter healthy checks) =? List.length checks)%nat eqn:E1.
  - split; [split; [intros _; now apply Hh | reflexivity]|].
    split; [discriminate|]. intros (c & Hin & Hs).
    assert (hc_status c = "healthy"%string) by (now apply Hh). congruence.
  - split.
    + split; [destruct (_ =? 0)%nat; discriminate|].
      intros H. apply Hh in H. discriminate.
    + destruct (List.length (filter critical checks) =? 0)%nat eqn:E2.
      * split; [discriminate|]. intros H. apply Hc in H. discriminate.
      * split; [intros _; now apply Hc | reflexivity].
Qed.
